(** * pandasai.smart_dataframe: the generation-to-execution pipeline

    A shallow embedding of [SmartDataframe] (src/pandasai/smart_dataframe/__init__.py):
    the sanitizer ([_clean_code], [_check_imports], [_is_df_overwrite]), the
    environment builder ([_get_environment]), the retry loop of [run_code]
    and the query entry point ([query], [conversational_answer]).

    Conventions of the embedding.
    - A code string is represented by what [ast.parse] makes of it: either it
      does not parse, or it is a module body.  [astor.to_source] followed by
      [ast.parse] is taken to be the identity on module bodies.
    - A computation returns [Ok v] or [Raise e], where [e] is an instance
      of [Exception].  The exceptions outside [Exception]
      ([KeyboardInterrupt], [SystemExit], [GeneratorExit]), which no
      [except Exception] catches, are not represented: a run in which one of
      them is raised has no counterpart here.
    - The instance ([self]) is threaded explicitly; the calls made to the
      collaborators are recorded in the ghost field [trace].
    - The timer and the calls of the logger have no effect on control flow
      and are left out, but for the arguments they evaluate: the log line at
      the head of [query] reads [self._llm.type], which can raise (see
      [Attributes.query_call]). *)

From Stdlib Require Import ZArith Lia List Ascii.
From stdpp Require Import base strings gmap list pretty.

Local Open Scope string_scope.
Local Open Scope Z_scope.

(** ** Exceptions and results *)

Inductive exn :=
  | BadImportError (library_name : string)
  | SyntaxError (msg : string)
  | NameError (msg : string)
  | UnboundLocalError (msg : string)
  | TypeError (msg : string)
  | KeyError (msg : string)
  | IndexError (msg : string)
  | AttributeError (msg : string)
  | ImportError (msg : string)
  | RuntimeError (msg : string).

(** Modelled from the spec: the class [BadImportError] lives in
    pandasai/exceptions.py, which is not part of the sources; the spec only
    says that the error identifies the offending module, so its text is the
    module name. *)
Definition str_exn (e : exn) : string :=
  match e with
  | BadImportError library_name => library_name
  | SyntaxError msg | NameError msg | UnboundLocalError msg | TypeError msg
  | KeyError msg | IndexError msg | AttributeError msg | ImportError msg
  | RuntimeError msg => msg
  end.

Inductive res (A : Type) :=
  | Ok (a : A)
  | Raise (e : exn).
Arguments Ok {A} a.
Arguments Raise {A} e.

(** ** Python values *)

Inductive key :=
  | KInt (n : Z)
  | KStr (s : string).

Definition key_eqb (a b : key) : bool :=
  match a, b with
  | KInt m, KInt n => Z.eqb m n
  | KStr s, KStr t => String.eqb s t
  | _, _ => false
  end.

(** A dataframe, as far as the pipeline looks at it: [len] is the number of
    rows, indexing selects a column. *)
Record table := Table {
  table_id : nat;
  table_columns : list string;
  table_rows : nat;
}.

#[warnings="-register-all"]
Inductive value :=
  | VNone
  | VBool (b : bool)
  | VInt (n : Z)
  | VStr (s : string)
  | VList (items : list value)
  | VDict (items : list (key * value))
  | VTable (t : table)
  | VSeries (t : table) (column : string)
  | VModule (module : string)
  | VBuiltin (name : string)
  | VSmartDataframe (t : table).

Abbreviation namespace := (gmap string value).

Fixpoint assoc (k : key) (items : list (key * value)) : option value :=
  match items with
  | [] => None
  | (k', v) :: rest => if key_eqb k k' then Some v else assoc k rest
  end.

Definition str_key (k : key) : string :=
  match k with
  | KInt n => pretty n
  | KStr s => "'" +:+ s +:+ "'"
  end.

(** [type(v).__name__] *)
Definition type_name (v : value) : string :=
  match v with
  | VNone => "NoneType"
  | VBool _ => "bool"
  | VInt _ => "int"
  | VStr _ => "str"
  | VList _ => "list"
  | VDict _ => "dict"
  | VTable _ => "DataFrame"
  | VSeries _ _ => "Series"
  | VModule _ => "module"
  | VBuiltin _ => "builtin_function_or_method"
  | VSmartDataframe _ => "SmartDataframe"
  end.

(** [len(v)] *)
Definition py_len (v : value) : res Z :=
  match v with
  | VStr s => Ok (Z.of_nat (String.length s))
  | VList items => Ok (Z.of_nat (length items))
  | VDict items => Ok (Z.of_nat (length items))
  | VTable t => Ok (Z.of_nat (table_rows t))
  | VSeries t _ => Ok (Z.of_nat (table_rows t))
  | _ => Raise (TypeError ("object of type '" +:+ type_name v +:+ "' has no len()"))
  end.

(** A Python index into a sequence of length [len]; negative ones count from
    the end. *)
Definition index_of (n : Z) (len : nat) : option nat :=
  if 0 <=? n then (if n <? Z.of_nat len then Some (Z.to_nat n) else None)
  else (if 0 <=? n + Z.of_nat len then Some (Z.to_nat (n + Z.of_nat len)) else None).

(** [v[k]].  Subscripting a column of a table is pandas' business:
    [series_getitem t column k] is what [t[column][k]] gives, the element at
    the label [k] or the error raised for it. *)
Definition py_getitem (series_getitem : table -> string -> key -> res value)
    (v : value) (k : key) : res value :=
  match v, k with
  | VList items, KInt n =>
      match index_of n (length items) with
      | Some i =>
          match items !! i with
          | Some x => Ok x
          | None => Raise (IndexError "list index out of range")
          end
      | None => Raise (IndexError "list index out of range")
      end
  | VList _, KStr _ =>
      Raise (TypeError "list indices must be integers or slices, not str")
  | VStr s, KInt n =>
      match index_of n (String.length s) with
      | Some i =>
          match String.get i s with
          | Some c => Ok (VStr (String c ""))
          | None => Raise (IndexError "string index out of range")
          end
      | None => Raise (IndexError "string index out of range")
      end
  | VStr _, KStr _ => Raise (TypeError "string indices must be integers")
  | VDict items, _ =>
      match assoc k items with
      | Some x => Ok x
      | None => Raise (KeyError (str_key k))
      end
  | VTable t, KStr c =>
      if existsb (String.eqb c) (table_columns t) then Ok (VSeries t c)
      else Raise (KeyError (str_key k))
  | VTable _, KInt _ => Raise (KeyError (str_key k))
  | VSeries t column, _ => series_getitem t column k
  | _, _ => Raise (TypeError ("'" +:+ type_name v +:+ "' object is not subscriptable"))
  end.

(** [v == s] for a string literal [s] *)
Definition py_eq_str (v : value) (s : string) : bool :=
  match v with
  | VStr t => String.eqb t s
  | _ => false
  end.

(** ** Syntax trees

    Only what the sanitizer inspects is syntax.  Expressions and targets
    outside the fragment [constant | name], import statements and every other
    statement kind carry what executing them does to the globals. *)

Record alias := Alias {
  name : string;
  asname : option string;
}.

Inductive expr :=
  | Const (v : value)
  | Name (id : string)
  | Expression (eval : namespace -> namespace * res value).

Inductive target :=
  | TName (id : string)
  | TOther (store : value -> namespace -> namespace * option exn).

(** [ast.Import.names] and [ast.Assign.targets] are never empty: the first
    element is kept apart. *)
Inductive stmt :=
  | Import (name0 : alias) (names : list alias)
      (run : namespace -> namespace * option exn)
  | ImportFrom (module : option string) (name0 : alias) (names : list alias)
      (run : namespace -> namespace * option exn)
  | Assign (target0 : target) (targets : list target) (value : expr)
  | Statement (run : namespace -> namespace * option exn).

Inductive pycode :=
  | Malformed (text : string)
  | Module (body : list stmt).

(** ** Executing code: [exec(code, environment)]

    The globals are updated in place, so what a statement did before a later
    one raised stays in the environment. *)

Definition builtins_of (env : namespace) : list (key * value) :=
  match env !! "__builtins__" with
  | Some (VDict items) => items
  | _ => []
  end.

Definition lookup_name (id : string) (env : namespace) : res value :=
  match env !! id with
  | Some v => Ok v
  | None =>
      match assoc (KStr id) (builtins_of env) with
      | Some v => Ok v
      | None => Raise (NameError ("name '" +:+ id +:+ "' is not defined"))
      end
  end.

Definition eval_expr (e : expr) (env : namespace) : namespace * res value :=
  match e with
  | Const v => (env, Ok v)
  | Name id => (env, lookup_name id env)
  | Expression eval => eval env
  end.

Definition store_target (t : target) (v : value) (env : namespace)
  : namespace * option exn :=
  match t with
  | TName id => (<[id := v]> env, None)
  | TOther store => store v env
  end.

Fixpoint store_targets (ts : list target) (v : value) (env : namespace)
  : namespace * option exn :=
  match ts with
  | [] => (env, None)
  | t :: ts' =>
      match store_target t v env with
      | (env', Some e) => (env', Some e)
      | (env', None) => store_targets ts' v env'
      end
  end.

Definition exec_stmt (s : stmt) (env : namespace) : namespace * option exn :=
  match s with
  | Import _ _ run | ImportFrom _ _ _ run | Statement run => run env
  | Assign target0 targets value =>
      match eval_expr value env with
      | (env', Raise e) => (env', Some e)
      | (env', Ok v) => store_targets (target0 :: targets) v env'
      end
  end.

Fixpoint exec_body (body : list stmt) (env : namespace)
  : namespace * option exn :=
  match body with
  | [] => (env, None)
  | s :: rest =>
      match exec_stmt s env with
      | (env', Some e) => (env', Some e)
      | (env', None) => exec_body rest env'
      end
  end.

Definition exec (c : pycode) (env : namespace) : namespace * option exn :=
  match c with
  | Malformed _ => (env, Some (SyntaxError "invalid syntax"))
  | Module body => exec_body body env
  end.

(** ** Configuration, prompts and the instance *)

Module Config.
Record t := Build {
  verbose : bool;
  enforce_privacy : bool;
  enable_cache : bool;
  anonymize_dataframe : bool;
  use_error_correction_framework : bool;
  conversational_answer : bool;
  save_charts : bool;
  save_charts_path : string;
  custom_whitelisted_dependencies : list string;
  max_retries : Z;
  middlewares : list (pycode -> res pycode);
}.

(** The defaults of the class.  The fields [save_logs] (read by the logger
    only), [custom_prompts] (left empty) and [llm] (see
    [Attributes.load_config]) are not part of the record. *)
Definition default : t := {|
  verbose := false;
  enforce_privacy := false;
  enable_cache := true;
  anonymize_dataframe := true;
  use_error_correction_framework := true;
  conversational_answer := false;
  save_charts := false;
  save_charts_path := "charts";
  custom_whitelisted_dependencies := [];
  max_retries := 3;
  middlewares := [];
|}.
End Config.

Record Dependency := Dep {
  dep_module : string;
  dep_name : string;
  dep_alias : string;
}.

Record original_instructions := Instructions {
  question : string;
  df_head : string;
  num_rows : nat;
  num_columns : nat;
}.

(** The default prompt classes ([custom_prompts] is left empty). *)
Inductive instruction :=
  | GeneratePythonCodePrompt (prompt df_head : string) (num_rows num_columns : nat)
      (engine : string)
  | CorrectErrorPrompt (code : pycode) (error_returned : exn)
      (question df_head : string) (num_rows num_columns : nat)
  | GenerateResponsePrompt (question : string) (answer : value).

Inductive event :=
  | EGenerateCode (i : instruction)
  | ECall (i : instruction)
  | ECleanCode (c : pycode)
  | EExec (c : pycode) (before after : namespace) (raised : option exn).

(** The fields of the instance that the pipeline reads or assigns.
    [_middlewares] is the list of the class, shared by every instance. *)
Record SmartDataframe := Self {
  _df : table;
  _config : Config.t;
  _engine : string;
  _middlewares : list (pycode -> res pycode);
  _last_prompt_id : string;
  _original_instructions : option original_instructions;
  _additional_dependencies : list Dependency;
  last_code_generated : option pycode;
  last_code_executed : option pycode;
  last_result : option value;
  last_error : option string;
  trace : list event;
}.

(** Attribute assignment, [self.<field> = x]. *)

Definition set_last_prompt_id (x : string) (self : SmartDataframe) : SmartDataframe :=
  {| _df := _df self;
     _config := _config self;
     _engine := _engine self;
     _middlewares := _middlewares self;
     _last_prompt_id := x;
     _original_instructions := _original_instructions self;
     _additional_dependencies := _additional_dependencies self;
     last_code_generated := last_code_generated self;
     last_code_executed := last_code_executed self;
     last_result := last_result self;
     last_error := last_error self;
     trace := trace self |}.

Definition set_middlewares (x : list (pycode -> res pycode)) (self : SmartDataframe) : SmartDataframe :=
  {| _df := _df self;
     _config := _config self;
     _engine := _engine self;
     _middlewares := x;
     _last_prompt_id := _last_prompt_id self;
     _original_instructions := _original_instructions self;
     _additional_dependencies := _additional_dependencies self;
     last_code_generated := last_code_generated self;
     last_code_executed := last_code_executed self;
     last_result := last_result self;
     last_error := last_error self;
     trace := trace self |}.

Definition set_original_instructions (x : option original_instructions) (self : SmartDataframe) : SmartDataframe :=
  {| _df := _df self;
     _config := _config self;
     _engine := _engine self;
     _middlewares := _middlewares self;
     _last_prompt_id := _last_prompt_id self;
     _original_instructions := x;
     _additional_dependencies := _additional_dependencies self;
     last_code_generated := last_code_generated self;
     last_code_executed := last_code_executed self;
     last_result := last_result self;
     last_error := last_error self;
     trace := trace self |}.

Definition set_additional_dependencies (x : list Dependency) (self : SmartDataframe) : SmartDataframe :=
  {| _df := _df self;
     _config := _config self;
     _engine := _engine self;
     _middlewares := _middlewares self;
     _last_prompt_id := _last_prompt_id self;
     _original_instructions := _original_instructions self;
     _additional_dependencies := x;
     last_code_generated := last_code_generated self;
     last_code_executed := last_code_executed self;
     last_result := last_result self;
     last_error := last_error self;
     trace := trace self |}.

Definition set_last_code_generated (x : option pycode) (self : SmartDataframe) : SmartDataframe :=
  {| _df := _df self;
     _config := _config self;
     _engine := _engine self;
     _middlewares := _middlewares self;
     _last_prompt_id := _last_prompt_id self;
     _original_instructions := _original_instructions self;
     _additional_dependencies := _additional_dependencies self;
     last_code_generated := x;
     last_code_executed := last_code_executed self;
     last_result := last_result self;
     last_error := last_error self;
     trace := trace self |}.

Definition set_last_code_executed (x : option pycode) (self : SmartDataframe) : SmartDataframe :=
  {| _df := _df self;
     _config := _config self;
     _engine := _engine self;
     _middlewares := _middlewares self;
     _last_prompt_id := _last_prompt_id self;
     _original_instructions := _original_instructions self;
     _additional_dependencies := _additional_dependencies self;
     last_code_generated := last_code_generated self;
     last_code_executed := x;
     last_result := last_result self;
     last_error := last_error self;
     trace := trace self |}.

Definition set_last_result (x : option value) (self : SmartDataframe) : SmartDataframe :=
  {| _df := _df self;
     _config := _config self;
     _engine := _engine self;
     _middlewares := _middlewares self;
     _last_prompt_id := _last_prompt_id self;
     _original_instructions := _original_instructions self;
     _additional_dependencies := _additional_dependencies self;
     last_code_generated := last_code_generated self;
     last_code_executed := last_code_executed self;
     last_result := x;
     last_error := last_error self;
     trace := trace self |}.

Definition set_last_error (x : option string) (self : SmartDataframe) : SmartDataframe :=
  {| _df := _df self;
     _config := _config self;
     _engine := _engine self;
     _middlewares := _middlewares self;
     _last_prompt_id := _last_prompt_id self;
     _original_instructions := _original_instructions self;
     _additional_dependencies := _additional_dependencies self;
     last_code_generated := last_code_generated self;
     last_code_executed := last_code_executed self;
     last_result := last_result self;
     last_error := x;
     trace := trace self |}.

Definition set_trace (x : list event) (self : SmartDataframe) : SmartDataframe :=
  {| _df := _df self;
     _config := _config self;
     _engine := _engine self;
     _middlewares := _middlewares self;
     _last_prompt_id := _last_prompt_id self;
     _original_instructions := _original_instructions self;
     _additional_dependencies := _additional_dependencies self;
     last_code_generated := last_code_generated self;
     last_code_executed := last_code_executed self;
     last_result := last_result self;
     last_error := last_error self;
     trace := x |}.

(** ** The state-and-exception monad of the methods *)

Definition M (A : Type) : Type := SmartDataframe -> res A * SmartDataframe.

Definition ret {A} (a : A) : M A := fun self => (Ok a, self).

Definition raise {A} (e : exn) : M A := fun self => (Raise e, self).

Definition bind {A B} (m : M A) (k : A -> M B) : M B :=
  fun self =>
    match m self with
    | (Ok a, self') => k a self'
    | (Raise e, self') => (Raise e, self')
    end.

Notation "x <- c1 ;; c2" := (bind c1 (fun x => c2))
  (at level 100, c1 at next level, right associativity).
Notation "c1 ;; c2" := (bind c1 (fun _ => c2))
  (at level 100, right associativity).

Definition lift {A} (r : res A) : M A := fun self => (r, self).

Definition get : M SmartDataframe := fun self => (Ok self, self).

Definition modify (f : SmartDataframe -> SmartDataframe) : M unit :=
  fun self => (Ok tt, f self).

Definition emit (ev : event) : M unit :=
  modify (fun self => set_trace (trace self ++ [ev]) self).

(** [try: body except Exception as e: handler e] *)
Definition try_except {A} (body : M A) (handler : exn -> M A) : M A :=
  fun self =>
    match body self with
    | (Ok a, self') => (Ok a, self')
    | (Raise e, self') => handler e self'
    end.

(** ** The collaborators

    Code of the package that is not in this module, and the outer world: the
    response cache, the language model, the dataframe library, the chart
    helper and the module loader.  Each call returns or raises. *)

(** What [self._cache.get(query)] returns, as the condition of the cached
    branch reads it. *)
Inductive cached :=
  | Miss                   (* [None], or the empty string: false in a condition *)
  | Hit (code : pycode).   (* a string that is not empty *)

Record collaborators := World {
  uuid4 : string;
  cache_get : string -> res cached;
  cache_set : string -> pycode -> res unit;
  (* [self._df.head(n)], [anonymize_dataframe_head] when asked, [to_csv] *)
  head_to_csv : table -> nat -> bool -> res string;
  (* the n-th request to the model, [self._llm.generate_code(instruction, _)] *)
  llm_generate_code : nat -> instruction -> res pycode;
  (* the n-th request to the model, [self._llm.call(instruction, _)] *)
  llm_call : nat -> instruction -> res string;
  add_save_chart : pycode -> string -> string -> bool -> res pycode;
  import_dependency : string -> res value;
  getattr : value -> string -> option value;
  (* [mpimg.imread] and the [plt] calls of the plot branch *)
  show_plot : value -> res unit;
  (* pandas: [t[column][k]] *)
  series_getitem : table -> string -> key -> res value;
  (* the first steps of [SmartDataframe(df, config=self._config.__dict__)]:
     [load_config] on the dictionary of the configuration in use, which ends
     in the model's [is_pandasai_llm] and in the validation of [Config], and
     [Logger(...)] *)
  load_config_and_logger : res unit;
  (* [Cache()] *)
  new_cache : res unit;
}.

(** ** Reading the trace *)

Fixpoint count (p : event -> bool) (evs : list event) : nat :=
  match evs with
  | [] => O
  | ev :: rest => ((if p ev then 1 else 0) + count p rest)%nat
  end.

Definition is_llm_request (ev : event) : bool :=
  match ev with
  | EGenerateCode _ | ECall _ => true
  | _ => false
  end.

Definition llm_requests (self : SmartDataframe) : nat :=
  count is_llm_request (trace self).

Definition is_exec (ev : event) : bool :=
  match ev with
  | EExec _ _ _ _ => true
  | _ => false
  end.

Definition is_correction (ev : event) : bool :=
  match ev with
  | EGenerateCode (CorrectErrorPrompt _ _ _ _ _ _) => true
  | _ => false
  end.

Definition is_clean (ev : event) : bool :=
  match ev with
  | ECleanCode _ => true
  | _ => false
  end.

(** Number of execution attempts, of correction requests and of sanitizer
    runs among the events. *)
Definition executions : list event -> nat := count is_exec.
Definition corrections : list event -> nat := count is_correction.
Definition cleanings : list event -> nat := count is_clean.


(** What a call added to the trace. *)
Definition events_since (self self' : SmartDataframe) : list event :=
  drop (length (trace self)) (trace self').

Record attempt := Attempt {
  attempt_code : pycode;
  attempt_before : namespace;
  attempt_after : namespace;
  attempt_raised_exn : option exn;
}.

Fixpoint attempts (evs : list event) : list attempt :=
  match evs with
  | [] => []
  | EExec c before after raised :: rest => Attempt c before after raised :: attempts rest
  | _ :: rest => attempts rest
  end.

(** Every attempt starts in the environment the one before it left; the first
    one starts in [env]. *)
Fixpoint chained (env : namespace) (l : list attempt) : Prop :=
  match l with
  | [] => True
  | a :: rest =>
      attempt_before a = env
      /\ attempt_after a = fst (exec (attempt_code a) (attempt_before a))
      /\ chained (attempt_after a) rest
  end.

(** ** Strings *)

(** [s in l] *)
Definition py_in (s : string) (l : list string) : bool :=
  existsb (String.eqb s) l.

(** [s.split(".")[0]] *)
Fixpoint split_head (s : string) : string :=
  match s with
  | EmptyString => EmptyString
  | String c rest =>
      if Ascii.eqb c "."%char then EmptyString else String c (split_head rest)
  end.

(** [a or b] on an optional string *)
Definition py_or (a : option string) (b : string) : string :=
  match a with
  | None | Some EmptyString => b
  | Some s => s
  end.

Definition is_digit (c : ascii) : bool :=
  (Nat.leb 48 (nat_of_ascii c) && Nat.leb (nat_of_ascii c) 57)%bool.

(** The anchor [$]: the end of the string, or just before a final newline. *)
Definition at_end (s : string) : bool :=
  match s with
  | EmptyString => true
  | String c EmptyString => Ascii.eqb c "010"%char
  | _ => false
  end.

(** [re.match(r"df\d{0,2}$", s)], for names written in ASCII.  On a [str]
    pattern [\d] also accepts the decimal digits of other scripts; they take
    several bytes here and are not recognised, so the statements that depend
    on the exact set of names matched are stated for ASCII names. *)
Definition re_match_df (s : string) : bool :=
  match s with
  | String "d" (String "f" rest) =>
      at_end rest
      || match rest with
         | String c1 rest1 =>
             is_digit c1
             && (at_end rest1
                 || match rest1 with
                    | String c2 rest2 => is_digit c2 && at_end rest2
                    | EmptyString => false
                    end)
         | EmptyString => false
         end
  | _ => false
  end.

Definition nl : string := String "010"%char EmptyString.

(** The text returned by [query] when the pipeline raised. *)
Definition failure_message (e : exn) : string :=
  "Unfortunately, I was not able to answer your question, because of the following error:"
  +:+ nl +:+ nl +:+ str_exn e +:+ nl.

(** [d[k] = v] on a dictionary literal in construction *)
Fixpoint dict_set (k : key) (v : value) (items : list (key * value))
  : list (key * value) :=
  match items with
  | [] => [(k, v)]
  | (k', v') :: rest =>
      if key_eqb k k' then (k, v) :: rest else (k', v') :: dict_set k v rest
  end.

Section Pipeline.

(** The two constants of pandasai/constants.py, which is not part of the
    sources. *)
Variables WHITELISTED_BUILTINS WHITELISTED_LIBRARIES : list string.

Variable w : collaborators.

(** ** The sanitizer *)

Definition _is_df_overwrite (node : stmt) : bool :=
  match node with
  | Assign (TName id) _ _ => re_match_df id
  | _ => false
  end.

Definition is_import (node : stmt) : bool :=
  match node with
  | Import _ _ _ | ImportFrom _ _ _ _ => true
  | _ => false
  end.

Definition node_names (node : stmt) : list alias :=
  match node with
  | Import name0 names _ | ImportFrom _ name0 names _ => name0 :: names
  | _ => []
  end.

Definition dependency_of (module : string) (a : alias) : Dependency :=
  {| dep_module := module;
     dep_name := name a;
     dep_alias := py_or (asname a) (name a) |}.

Definition _check_imports (node : stmt) : M unit :=
  module <- lift
    match node with
    | Import name0 _ _ => Ok (name name0)
    | ImportFrom (Some module) _ _ _ => Ok module
    | ImportFrom None _ _ _ =>
        Raise (AttributeError "'NoneType' object has no attribute 'split'")
    | _ => Raise (AttributeError "object has no attribute 'module'")
    end;;
  let library := split_head module in
  if String.eqb library "pandas" then ret tt
  else
    self <- get;;
    if py_in library
         (WHITELISTED_LIBRARIES
          ++ Config.custom_whitelisted_dependencies (_config self))
    then
      modify (fun self =>
        set_additional_dependencies
          (_additional_dependencies self
           ++ map (dependency_of module) (node_names node)) self)
    else if negb (py_in library WHITELISTED_BUILTINS)
    then raise (BadImportError library)
    else ret tt.

(** The statements that go into [new_body]. *)
Definition kept_by_sanitizer (node : stmt) : bool :=
  negb (is_import node) && negb (_is_df_overwrite node).

(** The loop over [tree.body]. *)
Fixpoint clean_body (body new_body : list stmt) : M (list stmt) :=
  match body with
  | [] => ret new_body
  | node :: rest =>
      if is_import node then
        _check_imports node;;
        clean_body rest new_body
      else if _is_df_overwrite node then clean_body rest new_body
      else clean_body rest (new_body ++ [node])
  end.

Definition _clean_code (code : pycode) : M pycode :=
  emit (ECleanCode code);;
  match code with
  | Malformed _ => raise (SyntaxError "invalid syntax")
  | Module body =>
      modify (set_additional_dependencies []);;
      new_body <- clean_body body [];;
      ret (Module new_body)
  end.

(** ** The environment builder *)

(** [getattr(m, name) if hasattr(m, name) else m], for
    [m = import_dependency(module)]. *)
Definition resolve_dependency (lib : Dependency) : res value :=
  match import_dependency w (dep_module lib) with
  | Raise e => Raise e
  | Ok m =>
      match getattr w m (dep_name lib) with
      | Some v => Ok v
      | None => Ok m
      end
  end.

Fixpoint bind_dependencies (libs : list Dependency) (env : namespace)
  : res namespace :=
  match libs with
  | [] => Ok env
  | lib :: rest =>
      match resolve_dependency lib with
      | Raise e => Raise e
      | Ok v => bind_dependencies rest (<[dep_alias lib := v]> env)
      end
  end.

Definition restricted_builtins : list (key * value) :=
  dict_set (KStr "__name__") (VStr "__main__")
    (dict_set (KStr "__build_class__") (VBuiltin "__build_class__")
       (fold_left (fun items builtin => dict_set (KStr builtin) (VBuiltin builtin) items)
          WHITELISTED_BUILTINS [])).

Definition _get_environment : M namespace :=
  self <- get;;
  env <- lift (bind_dependencies (_additional_dependencies self)
                 {[ "pd" := VModule "pandas" ]});;
  ret (<["__builtins__" := VDict restricted_builtins]> env).

(** ** The retry loop and [run_code] *)

Definition generate_code (i : instruction) : M pycode :=
  self <- get;;
  emit (EGenerateCode i);;
  lift (llm_generate_code w (llm_requests self) i).

(** [_original_instructions] is only declared in the class body; it exists
    on the instance once a query has gone through generation. *)
Definition _retry_run_code (code : pycode) (e : exn) (multiple : bool) : M pycode :=
  self <- get;;
  match _original_instructions self with
  | None =>
      raise (AttributeError "'DataFrame' object has no attribute '_original_instructions'")
  | Some oi =>
      generate_code
        (CorrectErrorPrompt code e (question oi) (df_head oi) (num_rows oi)
           (num_columns oi))
  end.

(** [while count < max_retries], with [remaining = max_retries - count].
    The environment is the dictionary built before the loop; [exec] updates
    it in place. *)
Fixpoint retry_loop (use_error_correction_framework : bool) (remaining : nat)
    (code code_to_run : pycode) (environment : namespace) : M namespace :=
  match remaining with
  | O => ret environment
  | S remaining' =>
      let '(environment', raised) := exec code_to_run environment in
      emit (EExec code_to_run environment environment' raised);;
      match raised with
      | None => ret environment'
      | Some e =>
          if negb use_error_correction_framework then raise e
          else
            code_to_run' <- _retry_run_code code e false;;
            retry_loop use_error_correction_framework remaining' code
              code_to_run' environment'
      end
  end.

(** [{f"df{i}": dataframe for i, dataframe in enumerate(data_frame, start=1)}] *)
Fixpoint bind_tables (i : nat) (tables : list value) (env : namespace)
  : namespace :=
  match tables with
  | [] => env
  | dataframe :: rest =>
      bind_tables (S i) rest (<["df" +:+ pretty i := dataframe]> env)
  end.

Definition run_code (code : pycode) (data_frame : value)
    (use_error_correction_framework : bool) : M value :=
  self <- get;;
  code <- (if Config.save_charts (_config self)
           then lift (add_save_chart w code (_last_prompt_id self)
                        (Config.save_charts_path (_config self))
                        (negb (Config.verbose (_config self))))
           else ret code);;
  code_to_run <- _clean_code code;;
  modify (set_last_code_executed (Some code_to_run));;
  environment <- _get_environment;;
  match data_frame with
  | VList tables =>
      let environment := bind_tables 1 tables environment in
      (* the final [return result]: the local was never assigned *)
      raise (UnboundLocalError "local variable 'result' referenced before assignment")
  | _ =>
      let environment := <["df" := data_frame]> environment in
      environment <-
        retry_loop use_error_correction_framework
          (Z.to_nat (Config.max_retries (_config self))) code code_to_run
          environment;;
      ret (default VNone (environment !! "result"))
  end.

(** The statements of [run_code] that come before the test on [multiple]:
    chart instrumentation, sanitizer, environment.  [run_code] is
    [run_code_setup] followed by the branch (lemma [run_code_unfold]). *)
Definition run_code_setup (code : pycode) : M (pycode * pycode * namespace) :=
  self <- get;;
  code <- (if Config.save_charts (_config self)
           then lift (add_save_chart w code (_last_prompt_id self)
                        (Config.save_charts_path (_config self))
                        (negb (Config.verbose (_config self))))
           else ret code);;
  code_to_run <- _clean_code code;;
  modify (set_last_code_executed (Some code_to_run));;
  environment <- _get_environment;;
  ret (code, code_to_run, environment).

(** ** The query entry point *)

Definition conversational_answer (question : string) (answer : value) : M value :=
  self <- get;;
  if Config.enforce_privacy (_config self) then ret answer
  else
    let generate_response_instruction := GenerateResponsePrompt question answer in
    emit (ECall generate_response_instruction);;
    s <- lift (llm_call w (llm_requests self) generate_response_instruction);;
    ret (VStr s).

(** [SmartDataframe(df, config=self._config.__dict__)], that is [__init__] on
    a new instance: the configuration and the logger, the middlewares of the
    configuration appended to the list of the class, the cache, and
    [load_engine].  On anything but a dataframe [load_engine] reads
    [self._engine], which was never assigned and is looked up on [df] by
    [__getattr__]: a [SmartDataframe] has one, the other values raise. *)
Definition new_SmartDataframe (df : value) : M value :=
  self <- get;;
  lift (load_config_and_logger w);;
  modify (set_middlewares
            (_middlewares self ++ Config.middlewares (_config self)));;
  (if Config.enable_cache (_config self) then lift (new_cache w) else ret tt);;
  match df with
  | VTable t | VSmartDataframe t => ret (VSmartDataframe t)
  | VModule module =>
      raise (AttributeError
               ("module '" +:+ module +:+ "' has no attribute '_engine'"))
  | _ =>
      raise (AttributeError
               ("'" +:+ type_name df +:+ "' object has no attribute '_engine'"))
  end.

Fixpoint apply_middlewares (ms : list (pycode -> res pycode)) (code : pycode) : res pycode :=
  match ms with
  | [] => Ok code
  | middleware :: rest =>
      match middleware code with
      | Raise e => Raise e
      | Ok code' => apply_middlewares rest code'
      end
  end.

(** The first half of the [try] block: the code comes from the cache or from
    the model, then goes through the middlewares.  [_cache] is assigned by
    [__init__] exactly when [enable_cache] is set, so the condition
    [enable_cache and self._cache and self._cache.get(query)] comes down to
    the first and the last test. *)
Definition obtain_code (query : string) : M pycode :=
  self <- get;;
  cached <- (if Config.enable_cache (_config self)
             then lift (cache_get w query) else ret Miss);;
  code <-
    match cached with
    | Hit code => ret code
    | Miss =>
        let rows_to_display := if Config.enforce_privacy (_config self)
                               then 0%nat else 5%nat in
        df_head <- lift (head_to_csv w (_df self) rows_to_display
                           (Config.anonymize_dataframe (_config self)));;
        code <- generate_code
                  (GeneratePythonCodePrompt query df_head
                     (table_rows (_df self)) (length (table_columns (_df self)))
                     (_engine self));;
        modify (set_original_instructions
                  (Some {| question := query;
                           df_head := df_head;
                           num_rows := table_rows (_df self);
                           num_columns := length (table_columns (_df self)) |}));;
        (if Config.enable_cache (_config self)
         then lift (cache_set w query code) else ret tt);;
        ret code
    end;;
  modify (set_last_code_generated (Some code));;
  lift (apply_middlewares (_middlewares self) code).

(** The second half: from the value of [run_code] to the value returned. *)
Definition classify (query : string) (results : value) : M value :=
  self <- get;;
  n <- lift (py_len results);;
  if 1 <? n then
    output <- lift (py_getitem (series_getitem w) results (KInt 1));;
    output <-
      (if Config.conversational_answer (_config self) then
         answer <- lift (py_getitem (series_getitem w) output (KStr "result"));;
         conversational_answer query answer
       else ret output);;
    type <- lift (py_getitem (series_getitem w) output (KStr "type"));;
    if py_eq_str type "dataframe" then
      df <- lift (py_getitem (series_getitem w) output (KStr "result"));;
      new_SmartDataframe df
    else if py_eq_str type "plot" then
      path <- lift (py_getitem (series_getitem w) output (KStr "result"));;
      lift (show_plot w path);;
      ret VNone
    else lift (py_getitem (series_getitem w) output (KStr "result"))
  else ret VNone.

Definition query_pipeline (query : string) : M value :=
  code <- obtain_code query;;
  self <- get;;
  results <- run_code code (VTable (_df self))
               (Config.use_error_correction_framework (_config self));;
  modify (set_last_result (Some results));;
  classify query results.

(** [query], from [self._assign_prompt_id()] on.  Of the statements before
    it, the timer and the first log line do nothing here; the second log
    line reads [self._llm.type] and can raise, outside the [try] block: the
    whole call, with that statement, is [Attributes.query_call]. *)
Definition query (query : string) : M value :=
  modify (set_last_prompt_id (uuid4 w));;
  try_except (query_pipeline query)
    (fun exception =>
       modify (set_last_error (Some (str_exn exception)));;
       ret (VStr (failure_message exception))).

End Pipeline.

(** What obtaining the code and running it never assign. *)
Definition kept (self self' : SmartDataframe) : Prop :=
  _config self' = _config self
  /\ _df self' = _df self
  /\ _engine self' = _engine self
  /\ _middlewares self' = _middlewares self.




(** [isinstance(data_frame, list)] *)
Definition is_list (v : value) : bool :=
  match v with
  | VList _ => true
  | _ => false
  end.

Section Stages.

Variables WHITELISTED_BUILTINS WHITELISTED_LIBRARIES : list string.
Variable w : collaborators.


End Stages.

(** A relation between the instance before and after that every run of a
    computation satisfies. *)
Definition preserves {A} (R : SmartDataframe -> SmartDataframe -> Prop) (m : M A)
  : Prop :=
  forall self r self', m self = (r, self') -> R self self'.


(** ** Shapes of statements used in the statements about the sanitizer *)

(** The reserved names in the words of the specification: [df], or [df]
    followed by an index of one or two digits. *)
Definition reserved_name (id : string) : bool :=
  match id with
  | String "d" (String "f" index) =>
      Nat.leb (String.length index) 2
      && forallb is_digit (String.list_ascii_of_string index)
  | _ => false
  end.

(** An assignment whose first target is a reserved name, whatever the
    targets after it. *)
Definition first_target_reserved (node : stmt) : bool :=
  match node with
  | Assign (TName id) _ _ => reserved_name id
  | _ => false
  end.

(** A name made of ASCII letters, digits and underscores.  On these names
    the pattern of [_is_df_overwrite] reads as [re_match_df] does: [\d] has
    only the digits 0 to 9 to accept, and [$] no final newline. *)
Definition is_identifier_char (c : ascii) : bool :=
  is_digit c
  || (Nat.leb 65 (nat_of_ascii c) && Nat.leb (nat_of_ascii c) 90)
  || (Nat.leb 97 (nat_of_ascii c) && Nat.leb (nat_of_ascii c) 122)
  || Ascii.eqb c "_"%char.

Definition ascii_identifier (id : string) : bool :=
  forallb is_identifier_char (String.list_ascii_of_string id).

(** The name assigned first by a statement is written in ASCII. *)
Definition first_target_in_ascii (node : stmt) : bool :=
  match node with
  | Assign (TName id) _ _ => ascii_identifier id
  | _ => true
  end.





(** The module an import statement is checked under: the first name of an
    [import], the module of a [from ... import]. *)
Definition checked_module (node : stmt) : option string :=
  match node with
  | Import name0 _ _ => Some (name name0)
  | ImportFrom module _ _ _ => module
  | _ => None
  end.

(** ** Concrete runs

    A small table, a model that answers with fixed code, and an instance per
    configuration: the inputs on which the statements below are evaluated. *)

Module Scenario.

(** Stand-ins for the two constants of pandasai/constants.py. *)
Definition whitelisted_builtins : list string := ["len"; "print"; "sum"].
Definition whitelisted_libraries : list string := ["numpy"; "matplotlib"].

Definition loans : table :=
  {| table_id := 1; table_columns := ["Loan_ID"; "Principal"]; table_rows := 10 |}.

(** [id = e] *)
Definition assign (id : string) (e : expr) : stmt := Assign (TName id) [] e.

(** [[None, {"type": type, "result": v}]]: what [query] expects to find in
    the reserved output name. *)
Definition output (type : string) (v : value) : value :=
  VList [VNone; VDict [(KStr "type", VStr type); (KStr "result", v)]].

(** A model that returns [first] when asked to generate, [corrected] when
    asked to correct, and [sentence] when asked to restate an answer. *)
Definition model (first corrected : pycode) (sentence : string) : collaborators :=
  {| uuid4 := "0b1c";
     cache_get := fun _ => Ok Miss;
     cache_set := fun _ _ => Ok tt;
     head_to_csv := fun _ _ _ => Ok "Loan_ID,Principal";
     llm_generate_code := fun _ i =>
       match i with
       | CorrectErrorPrompt _ _ _ _ _ _ => Ok corrected
       | _ => Ok first
       end;
     llm_call := fun _ _ => Ok sentence;
     add_save_chart := fun code _ _ _ => Ok code;
     import_dependency := fun module => Ok (VModule module);
     getattr := fun _ _ => None;
     show_plot := fun _ => Ok tt;
     series_getitem := fun _ _ k => Raise (KeyError (str_key k));
     load_config_and_logger := Ok tt;
     new_cache := Ok tt |}.

Definition instance (config : Config.t) : SmartDataframe :=
  {| _df := loans;
     _config := config;
     _engine := "pandas";
     _middlewares := [];
     _last_prompt_id := "";
     _original_instructions := None;
     _additional_dependencies := [];
     last_code_generated := None;
     last_code_executed := None;
     last_result := None;
     last_error := None;
     trace := [] |}.

(** The instance once a first question has gone through generation. *)
Definition asked (config : Config.t) : SmartDataframe :=
  set_original_instructions
    (Some {| question := "What is the average principal?";
             df_head := "Loan_ID,Principal";
             num_rows := 10;
             num_columns := 2 |})
    (instance config).

Definition with_error_correction (b : bool) (config : Config.t) : Config.t :=
  {| Config.verbose := Config.verbose config;
     Config.enforce_privacy := Config.enforce_privacy config;
     Config.enable_cache := Config.enable_cache config;
     Config.anonymize_dataframe := Config.anonymize_dataframe config;
     Config.use_error_correction_framework := b;
     Config.conversational_answer := Config.conversational_answer config;
     Config.save_charts := Config.save_charts config;
     Config.save_charts_path := Config.save_charts_path config;
     Config.custom_whitelisted_dependencies :=
       Config.custom_whitelisted_dependencies config;
     Config.max_retries := Config.max_retries config;
     Config.middlewares := Config.middlewares config |}.

(** Conversational answers switched on, with or without privacy. *)
Definition conversational (privacy : bool) : Config.t :=
  {| Config.verbose := false;
     Config.enforce_privacy := privacy;
     Config.enable_cache := true;
     Config.anonymize_dataframe := true;
     Config.use_error_correction_framework := true;
     Config.conversational_answer := true;
     Config.save_charts := false;
     Config.save_charts_path := "charts";
     Config.custom_whitelisted_dependencies := [];
     Config.max_retries := 3;
     Config.middlewares := [] |}.

(** [result = undefined_name]: raises [NameError] in every environment that
    [run_code] builds in these runs. *)
Definition failing : pycode :=
  Module [assign "result" (Name "undefined_name")].

(** [df = 0] then [result = df] *)
Definition overwriting : pycode :=
  Module [assign "df" (Const (VInt 0)); assign "result" (Name "df")].

(** [result = [None, {"type": "number", "result": 42}]] *)
Definition answering : pycode :=
  Module [assign "result" (Const (output "number" (VInt 42)))].

(** [df = 0] then [result = undefined_name] *)
Definition first_draft : pycode :=
  Module [assign "df" (Const (VInt 0)); assign "result" (Name "undefined_name")].


(** [df = 1] then [x = df] *)
Definition harmless : pycode :=
  Module [assign "df" (Const (VInt 1)); assign "x" (Name "df")].

(** [x = 7] then [result = undefined_name] *)
Definition leaving_x : pycode :=
  Module [assign "x" (Const (VInt 7)); assign "result" (Name "undefined_name")].

(** [result = x] *)
Definition reading_x : pycode := Module [assign "result" (Name "x")].

(** [result = [None, {"type": "string", "result": "partial"}]] then
    [total = undefined_name] *)
Definition partial : pycode :=
  Module [assign "result" (Const (output "string" (VStr "partial")));
          assign "total" (Name "undefined_name")].

(** [x = 1]: runs through and binds no [result]. *)
Definition silent : pycode := Module [assign "x" (Const (VInt 1))].

(** An import statement handed to [exec]: the restricted builtins of these
    runs have no [__import__]. *)
Definition no_import (env : namespace) : namespace * option exn :=
  (env, Some (ImportError "__import__ not found")).

(** [import os] *)
Definition import_os : pycode :=
  Module [Import {| name := "os"; asname := None |} [] no_import].

(** [import numpy, os] *)
Definition import_numpy_os : pycode :=
  Module [Import {| name := "numpy"; asname := None |}
            [{| name := "os"; asname := None |}] no_import].

(** The environment [_get_environment] builds when the dependency list is
    empty. *)
Definition bare_environment : namespace :=
  <["__builtins__" := VDict (restricted_builtins whitelisted_builtins)]>
    {[ "pd" := VModule "pandas" ]}.

Definition the_question : string := "What is the average principal?".

(** [run_code] on [code] with the model answering corrections by
    [corrected]. *)
Definition run (code corrected : pycode) (config : Config.t)
  : res value * SmartDataframe :=
  run_code whitelisted_builtins whitelisted_libraries (model code corrected "")
    code (VTable loans) (Config.use_error_correction_framework config)
    (asked config).

(** [query] with the model generating [code] and answering corrections by
    [corrected]. *)
Definition ask (code corrected : pycode) (config : Config.t)
  : res value * SmartDataframe :=
  query whitelisted_builtins whitelisted_libraries
    (model code corrected "The average principal is 42.") the_question
    (instance config).

End Scenario.

(** ** Further notions used in the statements on the rest of the code *)

Section Approval.

Variables WHITELISTED_BUILTINS WHITELISTED_LIBRARIES : list string.

(** The three ways an import statement gets past [_check_imports]: its
    top-level package is [pandas], is in the library whitelist (with the
    configured additions), or is in the builtin whitelist. *)
Definition approved (config : Config.t) (node : stmt) : Prop :=
  exists module,
    checked_module node = Some module
    /\ (split_head module = "pandas"
        \/ py_in (split_head module)
             (WHITELISTED_LIBRARIES ++ Config.custom_whitelisted_dependencies config)
           = true
        \/ py_in (split_head module) WHITELISTED_BUILTINS = true).

(** A dependency whose module is a whitelisted library other than pandas. *)
Definition whitelisted (config : Config.t) (lib : Dependency) : Prop :=
  py_in (split_head (dep_module lib))
    (WHITELISTED_LIBRARIES ++ Config.custom_whitelisted_dependencies config)
  = true
  /\ split_head (dep_module lib) <> "pandas".

(** An import statement that [_check_imports] lets through without recording
    anything: it is checked under [pandas], or under a package that is only
    in the builtin whitelist. *)
Definition dropped_silently (config : Config.t) (node : stmt) : Prop :=
  exists module,
    checked_module node = Some module
    /\ (split_head module = "pandas"
        \/ (py_in (split_head module)
              (WHITELISTED_LIBRARIES ++ Config.custom_whitelisted_dependencies config)
            = false
            /\ py_in (split_head module) WHITELISTED_BUILTINS = true)).

End Approval.

(** ** Further readings of the trace *)

Definition is_call (ev : event) : bool :=
  match ev with
  | ECall _ => true
  | _ => false
  end.

Definition is_generation (ev : event) : bool :=
  match ev with
  | EGenerateCode (GeneratePythonCodePrompt _ _ _ _ _) => true
  | _ => false
  end.

(** The correction requests among the events, in order. *)
Fixpoint correction_prompts (evs : list event) : list instruction :=
  match evs with
  | [] => []
  | EGenerateCode (CorrectErrorPrompt c e q h r n) :: rest =>
      CorrectErrorPrompt c e q h r n :: correction_prompts rest
  | _ :: rest => correction_prompts rest
  end.

(** The errors of the attempts that raised, in order. *)
Fixpoint failures (l : list attempt) : list exn :=
  match l with
  | [] => []
  | a :: rest =>
      match attempt_raised_exn a with
      | Some e => e :: failures rest
      | None => failures rest
      end
  end.

(** Nothing but the trace differs between two states of the instance. *)
Definition only_trace (self self' : SmartDataframe) : Prop :=
  self' = set_trace (trace self') self.

(** The events added between two states hold no call of [llm.call]. *)
Definition no_call (self self' : SmartDataframe) : Prop :=
  exists new : list event,
    trace self' = (trace self ++ new)%list /\ count is_call new = O.

(** A name written in ASCII characters only.  In a pattern on [str], [\d]
    also accepts the decimal digits of other scripts, which take several
    bytes here: the ASCII reading of [\d] is the pattern's on these names. *)
Definition written_in_ascii (s : string) : bool :=
  forallb (fun c => Nat.ltb (nat_of_ascii c) 128) (String.list_ascii_of_string s).

(** What [\d{0,2}$] accepts after the two letters [df]. *)
Definition reserved_suffix (rest : string) : bool :=
  at_end rest
  || match rest with
     | String c1 rest1 =>
         is_digit c1
         && (at_end rest1
             || match rest1 with
                | String c2 rest2 => is_digit c2 && at_end rest2
                | EmptyString => false
                end)
     | EmptyString => false
     end.

(** ** Attributes that exist only once assigned

    [_engine], [_llm] and [_config] are declared in the class body without a
    value, so reading one that was never assigned goes through
    [__getattr__], which reads the attribute of the same name on the wrapped
    object. *)

Module Attributes.

(** What [isinstance] tells about the wrapped object. *)
Inductive frame_class :=
  | PandasFrame
  | PolarsFrame
  | OtherObject.

(** The wrapped object [self._df]: its class, and [getattr(self._df, attr)]. *)
Record wrapped := Wrapped {
  class_of : frame_class;
  frame_getattr : string -> res value;
}.

(** [__getattr__] *)
Definition __getattr__ (df : wrapped) (attr : string) : res value :=
  frame_getattr df attr.

(** [self.<attr>]: the value assigned on the instance, or the one
    [__getattr__] finds. *)
Definition attribute {A} (own : option A) (df : wrapped) (attr : string)
  : res (A + value) :=
  match own with
  | Some a => Ok (inl a)
  | None =>
      match __getattr__ df attr with
      | Ok v => Ok (inr v)
      | Raise e => Raise e
      end
  end.

(** The exceptions of construction: [ValueError] is raised by [load_engine]
    itself, the others come from the calls it makes. *)
Inductive construction_error :=
  | ValueError (msg : string)
  | Raised (e : exn).

Inductive outcome (A : Type) :=
  | Done (a : A)
  | Failed (e : construction_error).
Arguments Done {A} a.
Arguments Failed {A} e.

(** [load_engine]: [_engine] is the attribute before the call, the result
    is the attribute after it. *)
Definition load_engine (polars_imported : bool) (df : wrapped)
    (_engine : option string) : outcome (option string) :=
  let _engine :=
    match class_of df with
    | PolarsFrame => if polars_imported then Some "polars" else _engine
    | PandasFrame => Some "pandas"
    | OtherObject => _engine
    end in
  match attribute _engine df "_engine" with
  | Raise e => Failed (Raised e)
  | Ok (inr VNone) =>
      Failed (ValueError "Invalid input data. Must be a Pandas or Polars dataframe.")
  | Ok _ => Done _engine
  end.

(** A language model object handed to [load_llm]: what calling its
    [is_pandasai_llm] does. *)
Record llm_object := {
  llm_name : string;
  is_pandasai_llm : res unit;
}.

(** The attribute [_llm]: the model itself, or the model wrapped in
    [LangchainLLM]. *)
Inductive loaded_llm :=
  | Native (llm : llm_object)
  | Langchain (llm : llm_object).

Definition load_llm (llm : llm_object) : res loaded_llm :=
  match is_pandasai_llm llm with
  | Ok _ => Ok (Native llm)
  | Raise (AttributeError _) => Ok (Langchain llm)
  | Raise e => Raise e
  end.

(** [load_config]: [entry] is what the dictionary holds under ["llm"]
    (nothing, [None], or a model), [validated] is what building the
    [Config] from the dictionary gives.  The result is the attributes [_llm] and [_config] after the
    call. *)
Definition load_config (entry : option (option llm_object)) (validated : res Config.t)
    (_llm : option loaded_llm) : res (option loaded_llm * Config.t) :=
  match entry with
  | None => Raise (KeyError "'llm'")
  | Some entry =>
      match
        match entry with
        | Some llm =>
            match load_llm llm with
            | Ok loaded => Ok (Some loaded)
            | Raise e => Raise e
            end
        | None => Ok _llm
        end
      with
      | Raise e => Raise e
      | Ok _llm =>
          match validated with
          | Ok config => Ok (_llm, config)
          | Raise e => Raise e
          end
      end
  end.

Section Call.

Variables WHITELISTED_BUILTINS WHITELISTED_LIBRARIES : list string.
Variable w : collaborators.

(** A call of [query], with the statement before the [try] block that reads
    [self._llm.type] for the log: [llm_type] is what reading [type] on the
    model gives. *)
Definition query_call (_llm : option loaded_llm) (llm_type : res string)
    (df : wrapped) (q : string) (self : SmartDataframe)
  : res value * SmartDataframe :=
  match attribute _llm df "_llm" with
  | Raise e => (Raise e, self)
  | Ok _ =>
      match llm_type with
      | Raise e => (Raise e, self)
      | Ok _ => query WHITELISTED_BUILTINS WHITELISTED_LIBRARIES w q self
      end
  end.

End Call.

End Attributes.

(** ** Further concrete runs *)

Module Cases.

Import Scenario.

(** [import numpy as np], [from matplotlib import pyplot as plt],
    [df = 1], [result = np] *)
Definition plotting_body : list stmt :=
  [ Import {| name := "numpy"; asname := Some "np" |} [] no_import;
    ImportFrom (Some "matplotlib") {| name := "pyplot"; asname := Some "plt" |} []
      no_import;
    assign "df" (Const (VInt 1));
    assign "result" (Name "np") ].

Definition plotting : pycode := Module plotting_body.

(** [import pandas as pand], [result = 1] *)
Definition renaming_pandas_body : list stmt :=
  [ Import {| name := "pandas"; asname := Some "pand" |} [] no_import;
    assign "result" (Const (VInt 1)) ].

(** The body of [harmless]. *)
Definition harmless_body : list stmt :=
  [ assign "df" (Const (VInt 1)); assign "x" (Name "df") ].


(** [import numpy as result], then [x = 1] *)
Definition aliasing_result : pycode :=
  Module [Import {| name := "numpy"; asname := Some "result" |} [] no_import;
          assign "x" (Const (VInt 1))].


(** [result = []] *)
Definition empty_answer : pycode := Module [assign "result" (Const (VList []))].

(** The default configuration with another budget. *)
Definition with_budget (n : Z) (config : Config.t) : Config.t :=
  {| Config.verbose := Config.verbose config;
     Config.enforce_privacy := Config.enforce_privacy config;
     Config.enable_cache := Config.enable_cache config;
     Config.anonymize_dataframe := Config.anonymize_dataframe config;
     Config.use_error_correction_framework :=
       Config.use_error_correction_framework config;
     Config.conversational_answer := Config.conversational_answer config;
     Config.save_charts := Config.save_charts config;
     Config.save_charts_path := Config.save_charts_path config;
     Config.custom_whitelisted_dependencies :=
       Config.custom_whitelisted_dependencies config;
     Config.max_retries := n;
     Config.middlewares := Config.middlewares config |}.

(** A model whose cache already holds [code] for every question. *)
Definition caching (code corrected : pycode) : collaborators :=
  {| uuid4 := uuid4 (model code corrected "");
     cache_get := fun _ => Ok (Hit code);
     cache_set := cache_set (model code corrected "");
     head_to_csv := head_to_csv (model code corrected "");
     llm_generate_code := llm_generate_code (model code corrected "");
     llm_call := llm_call (model code corrected "");
     add_save_chart := add_save_chart (model code corrected "");
     import_dependency := import_dependency (model code corrected "");
     getattr := getattr (model code corrected "");
     show_plot := show_plot (model code corrected "");
     series_getitem := series_getitem (model code corrected "");
     load_config_and_logger := load_config_and_logger (model code corrected "");
     new_cache := new_cache (model code corrected "") |}.

(** The state of an instance after the sanitizer has recorded two imports
    under the alias [np]. *)
Definition twice_np : list Dependency :=
  [ {| dep_module := "numpy"; dep_name := "numpy"; dep_alias := "np" |};
    {| dep_module := "matplotlib"; dep_name := "pyplot"; dep_alias := "np" |} ].

(** A list, which has no attribute at all. *)
Definition a_list : Attributes.wrapped :=
  {| Attributes.class_of := Attributes.OtherObject;
     Attributes.frame_getattr := fun attr =>
       Raise (AttributeError ("'list' object has no attribute '" +:+ attr +:+ "'")) |}.

(** An object that is no frame but carries [_engine = None]. *)
Definition engineless : Attributes.wrapped :=
  {| Attributes.class_of := Attributes.OtherObject;
     Attributes.frame_getattr := fun attr =>
       if String.eqb attr "_engine" then Ok VNone
       else Raise (AttributeError ("object has no attribute '" +:+ attr +:+ "'")) |}.

(** A pandas frame without private attributes. *)
Definition a_frame : Attributes.wrapped :=
  {| Attributes.class_of := Attributes.PandasFrame;
     Attributes.frame_getattr := fun attr =>
       Raise (AttributeError ("'DataFrame' object has no attribute '" +:+ attr +:+ "'")) |}.

(** The instance after [plotting] has been sanitized. *)
Definition after_plotting : SmartDataframe :=
  snd (_clean_code whitelisted_builtins whitelisted_libraries plotting
         (instance Config.default)).

(** The environment built for [plotting]. *)
Definition plotting_environment : namespace :=
  <["__builtins__" := VDict (restricted_builtins whitelisted_builtins)]>
    (<["plt" := VModule "matplotlib"]>
       (<["np" := VModule "numpy"]> {[ "pd" := VModule "pandas" ]})).

(** The instance with [twice_np] as its dependency list. *)
Definition holding_twice_np : SmartDataframe :=
  set_additional_dependencies twice_np (instance Config.default).

Definition twice_np_environment : namespace :=
  <["__builtins__" := VDict (restricted_builtins whitelisted_builtins)]>
    (<["np" := VModule "matplotlib"]>
       (<["np" := VModule "numpy"]> {[ "pd" := VModule "pandas" ]})).

(** The two attempts of the run of [leaving_x] corrected by [reading_x]. *)
Definition first_attempt : attempt :=
  {| attempt_code := leaving_x;
     attempt_before := <["df" := VTable loans]> bare_environment;
     attempt_after := <["x" := VInt 7]> (<["df" := VTable loans]> bare_environment);
     attempt_raised_exn := Some (NameError "name 'undefined_name' is not defined") |}.

Definition second_attempt : attempt :=
  {| attempt_code := reading_x;
     attempt_before := <["x" := VInt 7]> (<["df" := VTable loans]> bare_environment);
     attempt_after :=
       <["result" := VInt 7]>
         (<["x" := VInt 7]> (<["df" := VTable loans]> bare_environment));
     attempt_raised_exn := None |}.

(** The instructions stored by [asked]. *)
Definition stored : original_instructions :=
  {| question := "What is the average principal?";
     df_head := "Loan_ID,Principal";
     num_rows := 10;
     num_columns := 2 |}.

End Cases.
(** ** Reasoning about the monad *)

Lemma bind_inv {A B} (m : M A) (k : A -> M B) self r self' :
  (x <- m;; k x) self = (r, self') ->
  (exists a s, m self = (Ok a, s) /\ k a s = (r, self'))
  \/ (exists e, m self = (Raise e, self') /\ r = Raise e).
Proof.
  unfold bind. destruct (m self) as [[a|e] s]; intros H.
  - left. eauto.
  - right. inversion H; subst. eauto.
Qed.

Lemma bind_ok {A B} (m : M A) (k : A -> M B) self a s :
  m self = (Ok a, s) -> (x <- m;; k x) self = k a s.
Proof. intros H. unfold bind. now rewrite H. Qed.

Lemma bind_raise {A B} (m : M A) (k : A -> M B) self e s :
  m self = (Raise e, s) -> (x <- m;; k x) self = (Raise e, s).
Proof. intros H. unfold bind. now rewrite H. Qed.

Lemma lift_inv {A} (x : res A) self r self' :
  lift x self = (r, self') -> r = x /\ self' = self.
Proof. unfold lift. intros H. now inversion H. Qed.

Lemma events_since_app self self' (new : list event) :
  trace self' = (trace self ++ new)%list -> events_since self self' = new.
Proof. intros H. unfold events_since. rewrite H. apply drop_app_length. Qed.

Lemma events_since_refl self : events_since self self = [].
Proof. apply events_since_app. now rewrite app_nil_r. Qed.

Lemma attempts_app (l1 l2 : list event) :
  attempts (l1 ++ l2)%list = (attempts l1 ++ attempts l2)%list.
Proof.
  induction l1 as [|ev l1 IH]; simpl; [reflexivity|].
  destruct ev; simpl; now rewrite ?IH.
Qed.

Lemma count_app p (l1 l2 : list event) :
  count p (l1 ++ l2)%list = (count p l1 + count p l2)%nat.
Proof. induction l1 as [|ev l1 IH]; simpl; [reflexivity|]. rewrite IH. lia. Qed.

Ltac minv :=
  repeat
    match goal with
    | H : bind _ _ _ = (_, _) |- _ =>
        apply bind_inv in H;
        destruct H as [(? & ? & ? & H) | (? & H & ?)]
    | H : lift _ _ = (_, _) |- _ => apply lift_inv in H; destruct H as [? ?]
    | H : ret _ _ = (_, _) |- _ => unfold ret in H; inversion H; clear H
    | H : raise _ _ = (_, _) |- _ => unfold raise in H; inversion H; clear H
    | H : get _ = (_, _) |- _ => unfold get in H; inversion H; clear H
    | H : modify _ _ = (_, _) |- _ => unfold modify in H; inversion H; clear H
    | H : emit _ _ = (_, _) |- _ => unfold emit, modify in H; inversion H; clear H
    end;
  subst.

Ltac prim H :=
  unfold get, modify, emit, ret, raise, lift in H; inversion H; subst; clear H.

Lemma kept_refl self : kept self self.
Proof. now unfold kept. Qed.

Lemma kept_trans s1 s2 s3 : kept s1 s2 -> kept s2 s3 -> kept s1 s3.
Proof. unfold kept. intros (-> & -> & -> & ->) (-> & -> & -> & ->). auto. Qed.

Section Preserves.

Variable R : SmartDataframe -> SmartDataframe -> Prop.
Hypothesis R_refl : forall s, R s s.
Hypothesis R_trans : forall s1 s2 s3, R s1 s2 -> R s2 s3 -> R s1 s3.

Lemma preserves_ret {A} (a : A) : preserves R (ret a).
Proof. intros self r self' H. prim H. apply R_refl. Qed.

Lemma preserves_raise {A} e : preserves R (@raise A e).
Proof. intros self r self' H. prim H. apply R_refl. Qed.

Lemma preserves_lift {A} (x : res A) : preserves R (lift x).
Proof. intros self r self' H. prim H. apply R_refl. Qed.

Lemma preserves_get : preserves R get.
Proof. intros self r self' H. prim H. apply R_refl. Qed.

Lemma preserves_modify f : (forall s, R s (f s)) -> preserves R (modify f).
Proof. intros Hf self r self' H. prim H. apply Hf. Qed.

Lemma preserves_bind {A B} (m : M A) (k : A -> M B) :
  preserves R m -> (forall a, preserves R (k a)) -> preserves R (x <- m;; k x).
Proof.
  intros Hm Hk self r self' H.
  apply bind_inv in H as [(a & s & H1 & H2) | (e & H1 & ->)].
  - eapply R_trans; [eapply Hm | eapply Hk]; eauto.
  - eapply Hm; eauto.
Qed.

End Preserves.

Ltac preserves_with refl trans side :=
  repeat
    first
      [ apply (preserves_bind _ trans); [|intros ?]
      | apply (preserves_ret _ refl)
      | apply (preserves_raise _ refl)
      | apply (preserves_lift _ refl)
      | apply (preserves_get _ refl)
      | apply preserves_modify; intros ?; side
      | unfold emit; apply preserves_modify; intros ?; side
      | match goal with
        | |- preserves _ (if ?b then _ else _) => destruct b
        | |- preserves _ (match ?x with _ => _ end) => destruct x
        end ].

Ltac preserves_kept :=
  preserves_with kept_refl kept_trans ltac:(now repeat split).

Section Facts.

Variables WHITELISTED_BUILTINS WHITELISTED_LIBRARIES : list string.
Variable w : collaborators.

Local Abbreviation _check_imports := (_check_imports WHITELISTED_BUILTINS WHITELISTED_LIBRARIES).
Local Abbreviation clean_body := (clean_body WHITELISTED_BUILTINS WHITELISTED_LIBRARIES).
Local Abbreviation _clean_code := (_clean_code WHITELISTED_BUILTINS WHITELISTED_LIBRARIES).
Local Abbreviation _get_environment := (_get_environment WHITELISTED_BUILTINS w).
Local Abbreviation run_code_setup := (run_code_setup WHITELISTED_BUILTINS WHITELISTED_LIBRARIES w).
Local Abbreviation run_code := (run_code WHITELISTED_BUILTINS WHITELISTED_LIBRARIES w).
Local Abbreviation retry_loop := (retry_loop w).
Local Abbreviation obtain_code := (obtain_code w).
Local Abbreviation classify := (classify w).
Local Abbreviation query_pipeline := (query_pipeline WHITELISTED_BUILTINS WHITELISTED_LIBRARIES w).
Local Abbreviation query := (query WHITELISTED_BUILTINS WHITELISTED_LIBRARIES w).

(** *** The sanitizer leaves the trace and the instructions alone *)

Lemma check_imports_silent node self r self' :
  _check_imports node self = (r, self') ->
  trace self' = trace self /\ kept self self'
  /\ _original_instructions self' = _original_instructions self.
Proof.
  unfold _check_imports. intros H. minv.
  - destruct (String.eqb _ _); minv; [now repeat split|].
    destruct (py_in _ _); minv; [now repeat split|].
    destruct (negb _); minv; now repeat split.
  - now repeat split.
Qed.

Lemma clean_body_silent body : forall new_body self r self',
  clean_body body new_body self = (r, self') ->
  trace self' = trace self /\ kept self self'
  /\ _original_instructions self' = _original_instructions self.
Proof.
  induction body as [|node rest IH]; intros new_body self r self' H; simpl in H.
  - minv. now repeat split.
  - destruct (is_import node).
    + apply bind_inv in H as [(a & s & Hm & Hk) | (e & Hm & ->)].
      * apply check_imports_silent in Hm as (Ht & Hk1 & Ho).
        apply IH in Hk as (Ht' & Hk' & Ho').
        split; [congruence|]. split; [eapply kept_trans; eauto | congruence].
      * now apply check_imports_silent in Hm.
    + destruct (_is_df_overwrite node); eauto.
Qed.

Lemma clean_code_spec code self r self' :
  _clean_code code self = (r, self') ->
  trace self' = (trace self ++ [ECleanCode code])%list /\ kept self self'
  /\ _original_instructions self' = _original_instructions self.
Proof.
  unfold _clean_code. intros H.
  apply bind_inv in H as [(a & s & Hm & Hk) | (e & Hm & ->)];
    unfold emit, modify in Hm; inversion Hm; subst; clear Hm.
  destruct code as [text|body].
  - minv. now repeat split.
  - apply bind_inv in Hk as [(u & s1 & Hm & Hk) | (e & Hm & ->)];
      unfold modify in Hm; inversion Hm; subst; clear Hm.
    apply bind_inv in Hk as [(b & s2 & Hm & Hk) | (e & Hm & ->)].
    + minv. apply clean_body_silent in Hm as (Ht & Hkept & Ho). simpl in *.
      split; [congruence|]. split; [|congruence].
      destruct Hkept as (? & ? & ? & ?). now repeat split.
    + apply clean_body_silent in Hm as (Ht & Hkept & Ho). simpl in *.
      split; [congruence|]. split; [|congruence].
      destruct Hkept as (? & ? & ? & ?). now repeat split.
Qed.

(** *** The environment is built from the dependency list alone *)

Lemma get_environment_spec self r self' :
  _get_environment self = (r, self') ->
  self' = self
  /\ r = match bind_dependencies w (_additional_dependencies self)
                 {[ "pd" := VModule "pandas" ]} with
         | Ok env =>
             Ok (<["__builtins__" := VDict (restricted_builtins WHITELISTED_BUILTINS)]> env)
         | Raise e => Raise e
         end.
Proof.
  unfold _get_environment, bind, get, lift, ret. intros H.
  destruct (bind_dependencies _ _ _); inversion H; auto.
Qed.

(** *** [run_code]: set-up, then the branch on [multiple] *)

Lemma run_code_unfold code data_frame ecf self :
  run_code code data_frame ecf self =
  match run_code_setup code self with
  | (Raise e, s) => (Raise e, s)
  | (Ok (code', code_to_run, env), s) =>
      match data_frame with
      | VList tables =>
          (Raise (UnboundLocalError "local variable 'result' referenced before assignment"), s)
      | _ =>
          match retry_loop ecf (Z.to_nat (Config.max_retries (_config self)))
                  code' code_to_run (<["df" := data_frame]> env) s with
          | (Ok env', s') => (Ok (default VNone (env' !! "result")), s')
          | (Raise e, s') => (Raise e, s')
          end
      end
  end.
Proof.
  unfold run_code, run_code_setup, bind, get, ret, raise, modify.
  match goal with
  | |- context [(if ?b then ?x else ?y) self] =>
      destruct ((if b then x else y) self) as [[c|e] s1]; [|reflexivity]
  end.
  destruct (_clean_code c s1) as [[c2|e] s2]; [|reflexivity].
  destruct (_get_environment _) as [[env|e] s4]; [|reflexivity].
  destruct data_frame; reflexivity.
Qed.

Lemma run_code_setup_spec code self r self' :
  run_code_setup code self = (r, self') ->
  (exists new : list event,
      trace self' = (trace self ++ new)%list
      /\ (new = [] \/ exists c, new = [ECleanCode c]))
  /\ kept self self'
  /\ _original_instructions self' = _original_instructions self.
Proof.
  unfold run_code_setup. intros H.
  apply bind_inv in H as [(s0 & s & Hm & H) | (e & Hm & ->)]; prim Hm.
  apply bind_inv in H as [(c & s1 & Hchart & H) | (e & Hchart & ->)].
  - assert (s1 = s) as ->.
    { destruct (Config.save_charts _); prim Hchart; reflexivity. }
    apply bind_inv in H as [(c2 & s2 & Hclean & H) | (e & Hclean & ->)].
    + apply clean_code_spec in Hclean as (Ht & Hk & Ho).
      apply bind_inv in H as [(u & s3 & Hmod & H) | (e & Hmod & ->)]; prim Hmod.
      apply bind_inv in H as [(env & s4 & Henv & H) | (e & Henv & ->)].
      * apply get_environment_spec in Henv as [-> _]. prim H. simpl.
        split; [exists [ECleanCode c]; eauto|].
        destruct Hk as (? & ? & ? & ?). now repeat split.
      * apply get_environment_spec in Henv as [-> _]. simpl.
        split; [exists [ECleanCode c]; eauto|].
        destruct Hk as (? & ? & ? & ?). now repeat split.
    + apply clean_code_spec in Hclean as (Ht & Hk & Ho).
      split; [exists [ECleanCode c]; eauto|]. now split.
  - assert (self' = s) as ->.
    { destruct (Config.save_charts _); prim Hchart; reflexivity. }
    split; [exists []; rewrite app_nil_r; eauto|].
    split; [apply kept_refl | reflexivity].
Qed.

(** *** The retry loop *)

Lemma retry_run_code_spec code e multiple self r self' :
  _retry_run_code w code e multiple self = (r, self') ->
  match _original_instructions self with
  | None => self' = self /\ exists e', r = Raise e'
  | Some oi =>
      let i := CorrectErrorPrompt code e (question oi) (df_head oi)
                 (num_rows oi) (num_columns oi) in
      trace self' = (trace self ++ [EGenerateCode i])%list
      /\ r = llm_generate_code w (llm_requests self) i
  end
  /\ kept self self'
  /\ _original_instructions self' = _original_instructions self.
Proof.
  unfold _retry_run_code, generate_code. intros H.
  apply bind_inv in H as [(s0 & s & Hm & H) | (e0 & Hm & ->)]; prim Hm.
  destruct (_original_instructions s) as [oi|] eqn:Hoi.
  - apply bind_inv in H as [(s0 & s1 & Hm & H) | (e0 & Hm & ->)]; prim Hm.
    apply bind_inv in H as [(u & s2 & Hm & H) | (e0 & Hm & ->)]; prim Hm.
    prim H. simpl. rewrite Hoi. now repeat split.
  - prim H. rewrite Hoi. repeat split; eauto.
Qed.

(** One turn of the loop, spelled out. *)
Lemma retry_loop_turn ecf n code code_to_run env self r self' :
  retry_loop ecf (S n) code code_to_run env self = (r, self') ->
  exists env' raised,
    exec code_to_run env = (env', raised)
    /\ let s1 := set_trace (trace self ++ [EExec code_to_run env env' raised]) self in
       match raised with
       | None => r = Ok env' /\ self' = s1
       | Some e =>
           if ecf then
             match _original_instructions self with
             | None =>
                 r = Raise (AttributeError
                              "'DataFrame' object has no attribute '_original_instructions'")
                 /\ self' = s1
             | Some oi =>
                 let i := CorrectErrorPrompt code e (question oi) (df_head oi)
                            (num_rows oi) (num_columns oi) in
                 let s2 := set_trace (trace s1 ++ [EGenerateCode i]) s1 in
                 match llm_generate_code w (llm_requests s1) i with
                 | Ok code_to_run' =>
                     retry_loop ecf n code code_to_run' env' s2 = (r, self')
                 | Raise e' => r = Raise e' /\ self' = s2
                 end
             end
           else r = Raise e /\ self' = s1
       end.
Proof.
  simpl. destruct (exec code_to_run env) as [env' raised]. intros H.
  exists env', raised. split; [reflexivity|].
  cbv [bind emit modify ret raise _retry_run_code generate_code get lift] in H.
  simpl in H.
  destruct raised as [e|]; [|now inversion H].
  destruct ecf; simpl in H; [|now inversion H].
  destruct (_original_instructions self) as [oi|]; [|now inversion H].
  destruct (llm_generate_code w _ _) as [c'|e']; [exact H|now inversion H].
Qed.




Lemma run_code_single code data_frame ecf self :
  is_list data_frame = false ->
  run_code code data_frame ecf self =
  match run_code_setup code self with
  | (Raise e, s) => (Raise e, s)
  | (Ok (code', code_to_run, env), s) =>
      match retry_loop ecf (Z.to_nat (Config.max_retries (_config self)))
              code' code_to_run (<["df" := data_frame]> env) s with
      | (Ok env', s') => (Ok (default VNone (env' !! "result")), s')
      | (Raise e, s') => (Raise e, s')
      end
  end.
Proof.
  intros Hsingle. rewrite run_code_unfold.
  destruct (run_code_setup code self) as [[[[code' code_to_run] env]|e] s];
    [|reflexivity].
  destruct data_frame; try discriminate; reflexivity.
Qed.


(** *** One environment for all the attempts of a call *)

Lemma retry_loop_chained ecf remaining : forall code code_to_run env self r self',
  retry_loop ecf remaining code code_to_run env self = (r, self') ->
  exists new : list event,
    trace self' = (trace self ++ new)%list
    /\ chained env (attempts new)
    /\ cleanings new = O.
Proof.
  induction remaining as [|n IH]; intros code code_to_run env self r self' H;
    simpl in H.
  - prim H. exists []. rewrite app_nil_r. now repeat split.
  - destruct (exec code_to_run env) as [env' raised] eqn:Hexec.
    apply bind_inv in H as [(u & s1 & Hm & H) | (e0 & Hm & ->)]; prim Hm.
    assert (Hone : chained env (attempts [EExec code_to_run env env' raised])).
    { simpl. rewrite Hexec. now repeat split. }
    destruct raised as [e|];
      [|prim H; exists [EExec code_to_run env env' None];
        split; [reflexivity|split; [exact Hone|reflexivity]]].
    destruct ecf; simpl in H;
      [|prim H; exists [EExec code_to_run env env' (Some e)];
        split; [reflexivity|split; [exact Hone|reflexivity]]].
    apply bind_inv in H as [(c' & s2 & Hm & H) | (e0 & Hm & ->)];
      apply retry_run_code_spec in Hm as (Hstep & _ & _); simpl in Hstep.
    + apply IH in H as (new & Hnew & Hchain & Hclean).
      destruct (_original_instructions self) as [oi|];
        [destruct Hstep as [Ht _] | destruct Hstep as [_ [e' He']]; discriminate].
      eexists (EExec code_to_run env env' (Some e) :: EGenerateCode _ :: new).
      split; [rewrite Hnew, Ht; simpl; now rewrite <- !app_assoc|].
      simpl. rewrite Hexec. now repeat split.
    + destruct (_original_instructions self) as [oi|].
      * destruct Hstep as [Ht _].
        eexists [EExec code_to_run env env' (Some e); EGenerateCode _].
        split; [rewrite Ht; now rewrite <- app_assoc|].
        simpl. rewrite Hexec. now repeat split.
      * destruct Hstep as [-> _].
        exists [EExec code_to_run env env' (Some e)].
        split; [reflexivity|split; [exact Hone|reflexivity]].
Qed.

Lemma run_code_setup_environment code self code' code_to_run env s :
  run_code_setup code self = (Ok (code', code_to_run, env), s) ->
  exists env1,
    bind_dependencies w (_additional_dependencies s) {[ "pd" := VModule "pandas" ]}
    = Ok env1
    /\ env = <["__builtins__" := VDict (restricted_builtins WHITELISTED_BUILTINS)]> env1.
Proof.
  unfold run_code_setup. intros H.
  apply bind_inv in H as [(s0 & s1 & Hm & H) | (e & Hm & Hr)]; [prim Hm|discriminate].
  apply bind_inv in H as [(c & s2 & _ & H) | (e & _ & Hr)]; [|discriminate].
  apply bind_inv in H as [(c2 & s3 & _ & H) | (e & _ & Hr)]; [|discriminate].
  apply bind_inv in H as [(u & s4 & Hm & H) | (e & _ & Hr)]; [prim Hm|discriminate].
  apply bind_inv in H as [(env0 & s5 & Henv & H) | (e & _ & Hr)]; [|discriminate].
  apply get_environment_spec in Henv as [-> Henv]. prim H. simpl in *.
  destruct (bind_dependencies _ _ _) as [env1|e]; [|discriminate].
  inversion Henv. eauto.
Qed.

(** C7: with a list of tables, [run_code] never calls [exec] and never
    returns: once the set-up is through, the final [return result] raises
    [UnboundLocalError]. *)
Theorem run_code_multiple_raises code tables ecf self :
  run_code code (VList tables) ecf self =
  match run_code_setup code self with
  | (Ok _, s) =>
      (Raise (UnboundLocalError "local variable 'result' referenced before assignment"), s)
  | (Raise e, s) => (Raise e, s)
  end
  /\ executions (events_since self (snd (run_code code (VList tables) ecf self))) = O.
Proof.
  rewrite run_code_unfold.
  destruct (run_code_setup code self) as [[[[code' code_to_run] env]|e] s] eqn:Hsetup;
    (split; [reflexivity|]);
    apply run_code_setup_spec in Hsetup as ((new & Ht & Hnew) & _); simpl;
    rewrite (events_since_app _ _ _ Ht); now destruct Hnew as [-> | [c ->]].
Qed.

(** C8 (amended): the environment is built once per call of [run_code],
    from the dependency list and the constants alone; the first attempt
    runs in it with [df] bound to the input table, and every later attempt
    of the call runs in the environment as the attempt before left it. *)
Theorem environment_built_once code data_frame ecf self code' code_to_run env s r self' :
  is_list data_frame = false ->
  run_code_setup code self = (Ok (code', code_to_run, env), s) ->
  run_code code data_frame ecf self = (r, self') ->
  (exists env1,
      bind_dependencies w (_additional_dependencies s) {[ "pd" := VModule "pandas" ]}
      = Ok env1
      /\ env = <["__builtins__" := VDict (restricted_builtins WHITELISTED_BUILTINS)]> env1)
  /\ chained (<["df" := data_frame]> env) (attempts (events_since self self')).
Proof.
  intros Hsingle Hsetup Hrun.
  split; [eapply run_code_setup_environment; eauto|].
  rewrite run_code_single, Hsetup in Hrun by assumption.
  apply run_code_setup_spec in Hsetup as ((new0 & Ht0 & Hnew0) & _).
  destruct (retry_loop ecf _ code' code_to_run _ s) as [r1 s1] eqn:Hloop.
  apply retry_loop_chained in Hloop as (new1 & Ht1 & Hchain & _).
  replace self' with s1 by (destruct r1; now inversion Hrun).
  rewrite (events_since_app self s1 (new0 ++ new1)%list)
    by (now rewrite Ht1, Ht0, app_assoc).
  rewrite attempts_app. now destruct Hnew0 as [-> | [c ->]].
Qed.

(** *** The query entry point *)

Lemma obtain_code_kept query : preserves kept (obtain_code query).
Proof. unfold obtain_code, generate_code. preserves_kept. Qed.

Lemma query_pipeline_unfold query self :
  query_pipeline query self =
  match obtain_code query self with
  | (Raise e, s) => (Raise e, s)
  | (Ok code, s1) =>
      match run_code code (VTable (_df s1))
              (Config.use_error_correction_framework (_config s1)) s1 with
      | (Raise e, s) => (Raise e, s)
      | (Ok results, s2) => classify query results (set_last_result (Some results) s2)
      end
  end.
Proof.
  unfold query_pipeline, bind, get, modify.
  destruct (obtain_code query self) as [[code|e] s1]; [|reflexivity].
  destruct (run_code _ _ _ s1) as [[results|e] s2]; reflexivity.
Qed.

Lemma query_unfold q self :
  query q self =
  match query_pipeline q (set_last_prompt_id (uuid4 w) self) with
  | (Ok v, s) => (Ok v, s)
  | (Raise e, s) =>
      (Ok (VStr (failure_message e)), set_last_error (Some (str_exn e)) s)
  end.
Proof.
  unfold query, bind, modify, try_except, ret.
  destruct (query_pipeline _ _) as [[v|e] s]; reflexivity.
Qed.



Lemma bind_dependencies_other libs : forall (env env' : namespace) alias,
  bind_dependencies w libs env = Ok env' ->
  Forall (fun lib => dep_alias lib <> alias) libs ->
  env' !! alias = env !! alias.
Proof.
  induction libs as [|lib rest IH]; intros env env' alias H Hall; simpl in H.
  - now inversion H.
  - inversion Hall as [|? ? Hne Hrest]; subst.
    destruct (resolve_dependency w lib) as [v|e]; [|discriminate].
    erewrite IH by eauto. now apply lookup_insert_ne.
Qed.

(** The environment of a call binds no name that is not [pd],
    [__builtins__] or the alias of a recorded import. *)
Lemma run_code_setup_unbound code self code' code_to_run env s alias :
  run_code_setup code self = (Ok (code', code_to_run, env), s) ->
  Forall (fun lib => dep_alias lib <> alias) (_additional_dependencies s) ->
  alias <> "pd" ->
  alias <> "__builtins__" ->
  env !! alias = None.
Proof.
  intros Hsetup Hdeps Hpd Hbuiltins.
  apply run_code_setup_environment in Hsetup as (env1 & Hbind & ->).
  rewrite lookup_insert_ne by congruence.
  rewrite (bind_dependencies_other _ _ _ _ Hbind Hdeps).
  apply lookup_singleton_ne. congruence.
Qed.

(** C10 (amended): when no recorded import uses the name [result] as its
    alias, and the sanitized code of a single-table query runs through on
    the first attempt and leaves the name [result] as it found it,
    [run_code] returns [None]; [query] then returns, not [None], but the
    failure text built from the [TypeError] of [len(None)], and records that
    error in [last_error]. *)
Theorem missing_result_is_reported q self code s1 code' code_to_run env s2 env' :
  obtain_code q (set_last_prompt_id (uuid4 w) self) = (Ok code, s1) ->
  run_code_setup code s1 = (Ok (code', code_to_run, env), s2) ->
  0 < Config.max_retries (_config self) ->
  Forall (fun lib => dep_alias lib <> "result") (_additional_dependencies s2) ->
  exec code_to_run (<["df" := VTable (_df self)]> env) = (env', None) ->
  env' !! "result" = (<["df" := VTable (_df self)]> env) !! "result" ->
  fst (run_code code (VTable (_df self))
         (Config.use_error_correction_framework (_config self)) s1) = Ok VNone
  /\ fst (query q self)
     = Ok (VStr ("Unfortunately, I was not able to answer your question, because of the following error:"
                 +:+ nl +:+ nl +:+ "object of type 'NoneType' has no len()" +:+ nl))
  /\ last_error (snd (query q self)) = Some "object of type 'NoneType' has no len()".
Proof.
  intros Hobtain Hsetup Hbudget Hdeps Hexec Hresult.
  pose proof (obtain_code_kept _ _ _ _ Hobtain) as (Hcfg & Hdf & _).
  simpl in Hcfg, Hdf.
  rewrite lookup_insert_ne in Hresult by discriminate.
  rewrite (run_code_setup_unbound _ _ _ _ _ _ "result" Hsetup Hdeps) in Hresult
    by discriminate.
  assert (Hrun : exists s3,
             run_code code (VTable (_df self))
               (Config.use_error_correction_framework (_config self)) s1
             = (Ok VNone, s3)).
  { rewrite run_code_single, Hsetup by reflexivity. rewrite Hcfg.
    destruct (Z.to_nat (Config.max_retries (_config self))) as [|n] eqn:Hn; [lia|].
    simpl. rewrite Hexec. unfold bind, emit, modify, ret. simpl.
    rewrite Hresult. eauto. }
  destruct Hrun as [s3 Hrun]. split; [now rewrite Hrun|].
  rewrite query_unfold, query_pipeline_unfold, Hobtain, Hcfg, Hdf, Hrun.
  split; reflexivity.
Qed.

(** *** What the sanitizer keeps *)

Lemma clean_body_filter body : forall new_body self out self',
  clean_body body new_body self = (Ok out, self') ->
  out = (new_body ++ List.filter kept_by_sanitizer body)%list.
Proof.
  induction body as [|node rest IH]; intros new_body self out self' H; simpl in H.
  - prim H. now rewrite app_nil_r.
  - unfold kept_by_sanitizer at 1. simpl. destruct (is_import node); simpl.
    + apply bind_inv in H as [(u & s & _ & H) | (e & _ & Hr)]; [eauto|discriminate].
    + destruct (_is_df_overwrite node); simpl; [eauto|].
      apply IH in H. now rewrite <- app_assoc in H.
Qed.

Lemma re_match_df_cons a b rest :
  re_match_df (String a (String b rest))
  = (Ascii.eqb a "d" && Ascii.eqb b "f" && reserved_suffix rest)%bool.
Proof.
  destruct a as [[] [] [] [] [] [] [] []]; try reflexivity.
  destruct b as [[] [] [] [] [] [] [] []]; reflexivity.
Qed.

Lemma at_end_iff s : at_end s = true <-> s = EmptyString \/ s = nl.
Proof.
  destruct s as [|c [|c' s]]; simpl.
  - split; auto.
  - rewrite Ascii.eqb_eq. unfold nl. split.
    + intros ->. now right.
    + intros [H|H]; [discriminate|now inversion H].
  - split; [discriminate|]. intros [H|H]; discriminate.
Qed.

(** *** The reserved names, in the words of the specification and in the
    pattern of the code *)

Lemma reserved_name_cons a b index :
  reserved_name (String a (String b index))
  = (Ascii.eqb a "d" && Ascii.eqb b "f"
     && (Nat.leb (String.length index) 2
         && forallb is_digit (String.list_ascii_of_string index)))%bool.
Proof.
  destruct a as [[] [] [] [] [] [] [] []]; try reflexivity.
  destruct b as [[] [] [] [] [] [] [] []]; reflexivity.
Qed.



Lemma identifier_char_not_newline c :
  is_identifier_char c = true -> Ascii.eqb c "010"%char = false.
Proof. destruct c as [[] [] [] [] [] [] [] []]; vm_compute; intros H; congruence. Qed.

Lemma identifier_index_matches index :
  ascii_identifier index = true ->
  reserved_suffix index
  = (Nat.leb (String.length index) 2
     && forallb is_digit (String.list_ascii_of_string index))%bool.
Proof.
  unfold ascii_identifier, reserved_suffix.
  destruct index as [|c1 [|c2 [|c3 index]]]; simpl; intros H.
  - reflexivity.
  - rewrite andb_true_r in H. rewrite (identifier_char_not_newline _ H).
    now rewrite !andb_true_r.
  - apply andb_prop in H as [_ H]. rewrite andb_true_r in H.
    rewrite (identifier_char_not_newline _ H). now rewrite !andb_true_r.
  - apply andb_prop in H as [_ H]. apply andb_prop in H as [_ H].
    apply andb_prop in H as [H3 _].
    assert (Hend : at_end (String c3 index) = false).
    { destruct index; [exact (identifier_char_not_newline _ H3)|reflexivity]. }
    simpl in Hend. rewrite Hend. now rewrite !andb_false_r.
Qed.

(** On names written in ASCII the pattern matches the reserved names and no
    other. *)
Lemma identifier_match id :
  ascii_identifier id = true -> re_match_df id = reserved_name id.
Proof.
  destruct id as [|a [|b index]]; intros H.
  - reflexivity.
  - destruct a as [[] [] [] [] [] [] [] []]; reflexivity.
  - rewrite reserved_name_cons, re_match_df_cons.
    unfold ascii_identifier in H. simpl in H.
    apply andb_prop in H as [_ H]. apply andb_prop in H as [_ H].
    now rewrite (identifier_index_matches _ H).
Qed.








(** *** Imports: what [_check_imports] does with the module it looks at *)

Lemma unapproved_import_rejected node module self :
  is_import node = true ->
  checked_module node = Some module ->
  split_head module <> "pandas" ->
  py_in (split_head module)
    (WHITELISTED_LIBRARIES ++ Config.custom_whitelisted_dependencies (_config self))
  = false ->
  py_in (split_head module) WHITELISTED_BUILTINS = false ->
  _check_imports node self = (Raise (BadImportError (split_head module)), self).
Proof.
  intros Himport Hmodule Hpandas Hlib Hbuiltin.
  apply String.eqb_neq in Hpandas.
  destruct node as [name0 names run|[m|] name0 names run| |]; try discriminate;
    simpl in Hmodule; inversion Hmodule; subst;
    unfold _check_imports, bind, lift, get; simpl;
    now rewrite Hpandas, Hlib, Hbuiltin.
Qed.

Lemma approved_import_recorded node module self :
  is_import node = true ->
  checked_module node = Some module ->
  split_head module <> "pandas" ->
  py_in (split_head module)
    (WHITELISTED_LIBRARIES ++ Config.custom_whitelisted_dependencies (_config self))
  = true ->
  _check_imports node self
  = (Ok tt,
     set_additional_dependencies
       (_additional_dependencies self
        ++ map (dependency_of module) (node_names node)) self).
Proof.
  intros Himport Hmodule Hpandas Hlib.
  apply String.eqb_neq in Hpandas.
  destruct node as [name0 names run|[m|] name0 names run| |]; try discriminate;
    simpl in Hmodule; inversion Hmodule; subst;
    unfold _check_imports, bind, lift, get; simpl;
    now rewrite Hpandas, Hlib.
Qed.

(** *** How the failure of a stage reaches the handler of [query] *)

Lemma cache_failure_escapes q self e :
  Config.enable_cache (_config self) = true ->
  cache_get w q = Raise e ->
  obtain_code q self = (Raise e, self).
Proof.
  intros Hcache Hget. unfold obtain_code, bind, get, lift.
  now rewrite Hcache, Hget.
Qed.

Lemma generation_failure_escapes q self e sample :
  Config.enable_cache (_config self) = false ->
  head_to_csv w (_df self)
    (if Config.enforce_privacy (_config self) then 0%nat else 5%nat)
    (Config.anonymize_dataframe (_config self)) = Ok sample ->
  llm_generate_code w (llm_requests self)
    (GeneratePythonCodePrompt q sample (table_rows (_df self))
       (length (table_columns (_df self))) (_engine self)) = Raise e ->
  fst (obtain_code q self) = Raise e.
Proof.
  intros Hcache Hsample Hllm.
  unfold obtain_code, generate_code, bind, get, lift, ret, emit, modify.
  now rewrite Hcache, Hsample, Hllm.
Qed.

Lemma sanitizer_failure_escapes code data_frame ecf self e s :
  Config.save_charts (_config self) = false ->
  _clean_code code self = (Raise e, s) ->
  run_code code data_frame ecf self = (Raise e, s).
Proof.
  intros Hcharts Hclean. unfold run_code, bind, get, ret.
  now rewrite Hcharts, Hclean.
Qed.

Lemma execution_failure_escapes code data_frame self code' code_to_run env s env' e :
  is_list data_frame = false ->
  run_code_setup code self = (Ok (code', code_to_run, env), s) ->
  0 < Config.max_retries (_config self) ->
  exec code_to_run (<["df" := data_frame]> env) = (env', Some e) ->
  fst (run_code code data_frame false self) = Raise e.
Proof.
  intros Hsingle Hsetup Hbudget Hexec.
  rewrite run_code_single, Hsetup by assumption.
  destruct (Z.to_nat (Config.max_retries (_config self))) as [|n] eqn:Hn; [lia|].
  simpl. rewrite Hexec. reflexivity.
Qed.

End Facts.

(** ** The pipeline on concrete runs *)

Section Runs.

Import Scenario Cases.

Local Abbreviation WB := whitelisted_builtins.
Local Abbreviation WL := whitelisted_libraries.

Lemma ok_exists {A} (m : res A * SmartDataframe) :
  match fst m with Ok _ => True | Raise _ => False end ->
  exists x s, m = (Ok x, s).
Proof. destruct m as [[x|e] s]; simpl; [eauto|tauto]. Qed.

(** C1: the code returned by a correction request is handed to [exec] as it
    is.  The first draft is sanitized (its [df = 0] is dropped) and fails;
    the corrected code is never sanitized, its [df = 0] runs and the value
    returned is computed from the overwritten binding. *)
Theorem corrected_code_runs_unsanitized :
  fst (run first_draft overwriting Config.default) = Ok (VInt 0)
  /\ cleanings (trace (snd (run first_draft overwriting Config.default))) = 1%nat
  /\ map attempt_code
       (attempts (trace (snd (run first_draft overwriting Config.default))))
     = [failing; overwriting]
  /\ map (fun a => attempt_after a !! "df")
       (attempts (trace (snd (run first_draft overwriting Config.default))))
     = [Some (VTable loans); Some (VInt 0)].
Proof. vm_compute. repeat split. Qed.



(** C3: [import os] alone is rejected, but in [import numpy, os] only
    [numpy] is looked at: the sanitizer accepts the statement and records
    [os] as a name of the module [numpy]. *)
Theorem multi_name_import_unchecked :
  fst (_clean_code WB WL import_os (instance Config.default))
  = Raise (BadImportError "os")
  /\ fst (_clean_code WB WL import_numpy_os (instance Config.default)) = Ok (Module [])
  /\ _additional_dependencies
       (snd (_clean_code WB WL import_numpy_os (instance Config.default)))
     = [ {| dep_module := "numpy"; dep_name := "numpy"; dep_alias := "numpy" |};
         {| dep_module := "numpy"; dep_name := "os"; dep_alias := "os" |} ].
Proof. vm_compute. repeat split. Qed.

(** C4: when every attempt fails with error correction enabled, the loop
    ends without raising.  [query] then reports the [TypeError] of
    [len(None)] and not the [NameError] of the last attempt; and when the
    failing code had bound [result] before it raised, [query] returns that
    value. *)
Theorem exhaustion_not_reported :
  fst (ask failing failing Config.default)
  = Ok (VStr (failure_message (TypeError "object of type 'NoneType' has no len()")))
  /\ map attempt_raised_exn (attempts (trace (snd (ask failing failing Config.default))))
     = repeat (Some (NameError "name 'undefined_name' is not defined")) 3
  /\ fst (ask partial partial Config.default) = Ok (VStr "partial")
  /\ map attempt_raised_exn (attempts (trace (snd (ask partial partial Config.default))))
     = repeat (Some (NameError "name 'undefined_name' is not defined")) 3.
Proof. vm_compute. repeat split. Qed.





(** C8, as stated, fails: the second attempt reads the binding [x] that the
    first, failed attempt created. *)
Lemma failed_attempt_bindings_visible :
  fst (run leaving_x reading_x Config.default) = Ok (VInt 7)
  /\ map (fun a => (attempt_code a, attempt_before a !! "x", attempt_raised_exn a))
       (attempts (trace (snd (run leaving_x reading_x Config.default))))
     = [ (leaving_x, None, Some (NameError "name 'undefined_name' is not defined"));
         (reading_x, Some (VInt 7), None) ].
Proof. vm_compute. repeat split. Qed.

Lemma environment_built_once_witness :
  chained (<["df" := VTable loans]> bare_environment)
    (attempts (events_since (asked Config.default)
                 (snd (run leaving_x reading_x Config.default)))).
Proof.
  refine (proj2 (environment_built_once WB WL (model leaving_x reading_x "") leaving_x
                   (VTable loans) true (asked Config.default) leaving_x leaving_x
                   bare_environment
                   (snd (run_code_setup WB WL (model leaving_x reading_x "") leaving_x
                           (asked Config.default)))
                   _ _ eq_refl _ (surjective_pairing _))).
  vm_compute. reflexivity.
Defined.

(** C9: with conversational answers on, [output] is replaced by the
    sentence of the model (or, under privacy, by the raw value) and then
    indexed with ["type"]: [query] returns a failure message in both cases.
    With conversational answers off it returns the raw value. *)
Theorem conversational_answer_lost :
  fst (ask answering answering (conversational false))
  = Ok (VStr (failure_message (TypeError "string indices must be integers")))
  /\ count is_llm_request (trace (snd (ask answering answering (conversational false))))
     = 2%nat
  /\ fst (ask answering answering (conversational true))
     = Ok (VStr (failure_message (TypeError "'int' object is not subscriptable")))
  /\ fst (ask answering answering Config.default) = Ok (VInt 42).
Proof. vm_compute. repeat split. Qed.

(** C10, as stated, fails: the sanitized form of [import numpy as result]
    followed by [x = 1] is [x = 1], which runs through and never assigns
    [result]; the environment binds the name to the module all the same,
    [run_code] returns the module, and the failure text of [query] is about
    the length of a module. *)
Lemma result_bound_by_import :
  last_code_executed (snd (run aliasing_result aliasing_result Config.default))
  = Some (Module [assign "x" (Const (VInt 1))])
  /\ map attempt_raised_exn
       (attempts (trace (snd (run aliasing_result aliasing_result Config.default))))
     = [None]
  /\ fst (run aliasing_result aliasing_result Config.default) = Ok (VModule "numpy")
  /\ fst (ask aliasing_result aliasing_result Config.default)
     = Ok (VStr ("Unfortunately, I was not able to answer your question, because of the following error:"
                 +:+ nl +:+ nl +:+ "object of type 'module' has no len()" +:+ nl)).
Proof. vm_compute. repeat split. Qed.

Lemma missing_result_is_reported_witness :
  fst (run_code WB WL (model silent silent "The average principal is 42.") silent
         (VTable loans) true
         (snd (obtain_code (model silent silent "The average principal is 42.")
                 the_question
                 (set_last_prompt_id "0b1c" (instance Config.default)))))
  = Ok VNone
  /\ fst (ask silent silent Config.default)
     = Ok (VStr ("Unfortunately, I was not able to answer your question, because of the following error:"
                 +:+ nl +:+ nl +:+ "object of type 'NoneType' has no len()" +:+ nl))
  /\ last_error (snd (ask silent silent Config.default))
     = Some "object of type 'NoneType' has no len()".
Proof.
  refine (missing_result_is_reported WB WL
            (model silent silent "The average principal is 42.") the_question
            (instance Config.default) silent _ silent silent bare_environment
            (snd (run_code_setup WB WL
                    (model silent silent "The average principal is 42.") silent
                    (snd (obtain_code
                            (model silent silent "The average principal is 42.")
                            the_question
                            (set_last_prompt_id "0b1c" (instance Config.default))))))
            _ _ _ eq_refl _ _ _).
  - vm_compute. reflexivity.
  - vm_compute. reflexivity.
  - vm_compute. constructor.
  - vm_compute. reflexivity.
  - vm_compute. reflexivity.
Defined.

End Runs.

(** ** More on the sanitizer *)

Section SanitizerFacts.

Variables WHITELISTED_BUILTINS WHITELISTED_LIBRARIES : list string.

Local Abbreviation _check_imports := (_check_imports WHITELISTED_BUILTINS WHITELISTED_LIBRARIES).
Local Abbreviation clean_body := (clean_body WHITELISTED_BUILTINS WHITELISTED_LIBRARIES).
Local Abbreviation _clean_code := (_clean_code WHITELISTED_BUILTINS WHITELISTED_LIBRARIES).
Local Abbreviation approved := (approved WHITELISTED_BUILTINS WHITELISTED_LIBRARIES).
Local Abbreviation whitelisted := (whitelisted WHITELISTED_LIBRARIES).

(** The state in which the loop over the body starts. *)
Lemma clean_code_module body self :
  _clean_code (Module body) self =
  match clean_body body []
          (set_additional_dependencies []
             (set_trace (trace self ++ [ECleanCode (Module body)]) self)) with
  | (Ok new_body, s) => (Ok (Module new_body), s)
  | (Raise e, s) => (Raise e, s)
  end.
Proof.
  unfold _clean_code, bind, emit, modify, ret. simpl.
  destruct (clean_body body [] _) as [[new_body|e] s]; reflexivity.
Qed.

Lemma clean_body_kept_only body : forall new_body self,
  forallb kept_by_sanitizer body = true ->
  clean_body body new_body self = (Ok (new_body ++ body)%list, self).
Proof.
  induction body as [|node rest IH]; intros new_body self Hall; simpl.
  - now rewrite app_nil_r.
  - simpl in Hall. apply andb_prop in Hall as [Hnode Hrest].
    unfold kept_by_sanitizer in Hnode. apply andb_prop in Hnode as [Hi Hd].
    apply negb_true_iff in Hi, Hd. rewrite Hi, Hd.
    rewrite IH by assumption. now rewrite <- app_assoc.
Qed.

Lemma filter_kept_all body :
  forallb kept_by_sanitizer (List.filter kept_by_sanitizer body) = true.
Proof. apply forallb_forall. intros node Hin. now apply filter_In in Hin. Qed.

Lemma clean_code_ok_filter body self code_to_run self' :
  _clean_code (Module body) self = (Ok code_to_run, self') ->
  code_to_run = Module (List.filter kept_by_sanitizer body).
Proof.
  rewrite clean_code_module. intros H.
  destruct (clean_body body [] _) as [[new_body|e] s] eqn:Hbody; [|discriminate].
  apply clean_body_filter in Hbody. simpl in Hbody. inversion H. now subst.
Qed.

Lemma filter_ext_on (f g : stmt -> bool) body :
  Forall (fun node => f node = g node) body ->
  List.filter f body = List.filter g body.
Proof.
  induction 1 as [|node rest Hnode Hrest IH]; simpl; [reflexivity|].
  now rewrite Hnode, IH.
Qed.

(** X1: for code whose assigned names are written in ASCII, when
    sanitization succeeds its result is the statement list of the code
    without the top-level imports and without the assignments whose first
    target is [df] or [df] followed by one or two digits: every other
    statement is kept as it is, in the original order. *)
Theorem sanitizer_keeps_the_rest body self code_to_run self' :
  forallb first_target_in_ascii body = true ->
  _clean_code (Module body) self = (Ok code_to_run, self') ->
  code_to_run
  = Module (List.filter
              (fun node => negb (is_import node) && negb (first_target_reserved node))
              body).
Proof.
  intros Hascii H. apply clean_code_ok_filter in H as ->. f_equal.
  apply filter_ext_on. rewrite forallb_forall in Hascii.
  apply Forall_forall. intros node Hin. apply list_elem_of_In in Hin.
  specialize (Hascii node Hin). unfold kept_by_sanitizer. f_equal. f_equal.
  destruct node as [| |[id|store] targets value|]; try reflexivity.
  simpl in *. now apply identifier_match.
Qed.

(** X2: sanitizing the result of a successful sanitization again succeeds,
    for every instance, returns the same code and leaves the dependency list
    empty. *)
Theorem sanitizing_twice code self code_to_run self' other :
  _clean_code code self = (Ok code_to_run, self') ->
  fst (_clean_code code_to_run other) = Ok code_to_run
  /\ _additional_dependencies (snd (_clean_code code_to_run other)) = [].
Proof.
  intros H. destruct code as [text|body].
  - unfold _clean_code, bind, emit, modify, raise in H. discriminate.
  - apply clean_code_ok_filter in H as ->.
    rewrite clean_code_module, clean_body_kept_only by apply filter_kept_all.
    simpl. split; reflexivity.
Qed.

(** *** Imports that get through *)

Lemma check_imports_ok_inv node self s :
  _check_imports node self = (Ok tt, s) ->
  approved (_config self) node
  /\ (s = self
      \/ exists module,
           checked_module node = Some module
           /\ whitelisted (_config self) (dependency_of module {| name := ""; asname := None |})
           /\ s = set_additional_dependencies
                    (_additional_dependencies self
                     ++ map (dependency_of module) (node_names node)) self).
Proof.
  unfold _check_imports. intros H.
  apply bind_inv in H as [(module & s0 & Hm & H) | (e & _ & Hr)]; [|discriminate].
  apply lift_inv in Hm as [Hm ->].
  assert (Hchecked : checked_module node = Some module).
  { destruct node as [name0 names run|[m|] name0 names run| |];
      simpl in *; try discriminate; now inversion Hm. }
  destruct (String.eqb (split_head module) "pandas") eqn:Hpandas.
  - prim H. apply String.eqb_eq in Hpandas.
    split; [exists module; auto | now left].
  - apply String.eqb_neq in Hpandas.
    apply bind_inv in H as [(self0 & s1 & Hg & H) | (e & _ & Hr)]; [prim Hg|discriminate].
    destruct (py_in (split_head module) _) eqn:Hlib.
    + prim H. split; [exists module; auto|].
      right. exists module. repeat split; auto.
    + destruct (negb (py_in (split_head module) WHITELISTED_BUILTINS)) eqn:Hbuiltin;
        prim H.
      apply negb_false_iff in Hbuiltin.
      split; [exists module; auto | now left].
Qed.

Lemma clean_body_imports body : forall new_body self out self',
  clean_body body new_body self = (Ok out, self') ->
  (forall node, In node body -> is_import node = true -> approved (_config self) node)
  /\ (Forall (whitelisted (_config self)) (_additional_dependencies self) ->
      Forall (whitelisted (_config self)) (_additional_dependencies self')).
Proof.
  induction body as [|node rest IH]; intros new_body self out self' H; simpl in H.
  - prim H. split; [intros node []|auto].
  - destruct (is_import node) eqn:Himport.
    + apply bind_inv in H as [([] & s & Hcheck & H) | (e & _ & Hr)]; [|discriminate].
      pose proof (check_imports_silent _ _ _ _ _ _ Hcheck) as (_ & (Hcfg & _) & _).
      apply check_imports_ok_inv in Hcheck as [Happroved Hs].
      apply IH in H as [Hrest Hdeps]. rewrite Hcfg in Hrest, Hdeps.
      split.
      * intros n [<-|Hin] Hn; auto.
      * intros Hold. apply Hdeps.
        destruct Hs as [->|(module & Hchecked & [Hlib Hne] & ->)]; [assumption|].
        simpl. apply Forall_app. split; [assumption|].
        apply Forall_forall. intros d Hd. apply list_elem_of_In in Hd.
        apply in_map_iff in Hd as (a & <- & _).
        split; assumption.
    + assert (Hrec : exists nb, clean_body rest nb self = (Ok out, self')).
      { destruct (_is_df_overwrite node); eauto. }
      destruct Hrec as [nb Hrec]. apply IH in Hrec as [Hrest Hdeps].
      split; [|assumption].
      intros n [<-|Hin] Hn; [congruence|auto].
Qed.

(** X3: when sanitization succeeds, every top-level import statement of the
    code was approved: the module it is checked under has a top-level
    package that is [pandas] or is in one of the two whitelists. *)
Theorem sanitized_imports_are_approved body self code_to_run self' :
  _clean_code (Module body) self = (Ok code_to_run, self') ->
  forall node, In node body -> is_import node = true -> approved (_config self) node.
Proof.
  rewrite clean_code_module. intros H.
  destruct (clean_body body [] _) as [[new_body|e] s] eqn:Hbody; [|discriminate].
  now apply clean_body_imports in Hbody as [Hall _].
Qed.

(** X4: after a successful sanitization every recorded dependency names a
    module whose top-level package is in the library whitelist or in the
    configured additions, and is not [pandas]. *)
Theorem recorded_dependencies_are_whitelisted body self code_to_run self' :
  _clean_code (Module body) self = (Ok code_to_run, self') ->
  Forall (whitelisted (_config self)) (_additional_dependencies self').
Proof.
  rewrite clean_code_module. intros H.
  destruct (clean_body body [] _) as [[new_body|e] s] eqn:Hbody; [|discriminate].
  apply clean_body_imports in Hbody as [_ Hdeps].
  inversion H; subst. apply Hdeps. constructor.
Qed.

(** X5: the dependency list after sanitizing code that parses does not depend
    on the list an earlier sanitization left: it is reset before the loop.
    When the code does not parse, the earlier list stays as it was. *)
Theorem dependencies_follow_the_code old self :
  (forall body,
     _clean_code (Module body) (set_additional_dependencies old self)
     = _clean_code (Module body) self)
  /\ (forall text,
        _additional_dependencies
          (snd (_clean_code (Malformed text) (set_additional_dependencies old self)))
        = old).
Proof.
  split.
  - intros body. rewrite !clean_code_module. reflexivity.
  - intros text. reflexivity.
Qed.

Lemma check_imports_dropped node self :
  is_import node = true ->
  dropped_silently WHITELISTED_BUILTINS WHITELISTED_LIBRARIES (_config self) node ->
  _check_imports node self = (Ok tt, self).
Proof.
  intros Himport (module & Hchecked & Hwhy).
  assert (Hmodule :
    match node with
    | Import name0 _ _ => Ok (name name0)
    | ImportFrom (Some module) _ _ _ => Ok module
    | ImportFrom None _ _ _ =>
        Raise (AttributeError "'NoneType' object has no attribute 'split'")
    | _ => Raise (AttributeError "object has no attribute 'module'")
    end = Ok module).
  { destruct node as [name0 names run|[m|] name0 names run| |];
      simpl in *; try discriminate; now inversion Hchecked. }
  unfold _check_imports, bind, lift, get. rewrite Hmodule.
  destruct (String.eqb (split_head module) "pandas") eqn:Hpandas; [reflexivity|].
  destruct Hwhy as [Hp|[Hlib Hbuiltin]].
  - apply String.eqb_eq in Hp. congruence.
  - now rewrite Hlib, Hbuiltin.
Qed.

Lemma clean_body_dropped body : forall new_body self,
  Forall (fun node => is_import node = true ->
                      dropped_silently WHITELISTED_BUILTINS WHITELISTED_LIBRARIES
                        (_config self) node) body ->
  clean_body body new_body self
  = (Ok (new_body ++ List.filter kept_by_sanitizer body)%list, self).
Proof.
  induction body as [|node rest IH]; intros new_body self Hall; simpl.
  - now rewrite app_nil_r.
  - inversion Hall as [|? ? Hnode Hrest]; subst.
    unfold kept_by_sanitizer at 1. destruct (is_import node) eqn:Himport; simpl.
    + unfold bind. rewrite check_imports_dropped by auto. now apply IH.
    + destruct (_is_df_overwrite node); simpl; [now apply IH|].
      rewrite IH by assumption. now rewrite <- app_assoc.
Qed.

(** X6: when every top-level import of the code is checked under [pandas], or
    under a package that is only in the builtin whitelist, sanitization
    succeeds and records no dependency at all: whatever names those imports
    would have bound are bound nowhere. *)
Theorem imports_dropped_without_binding body self :
  Forall (fun node => is_import node = true ->
                      dropped_silently WHITELISTED_BUILTINS WHITELISTED_LIBRARIES
                        (_config self) node) body ->
  fst (_clean_code (Module body) self) = Ok (Module (List.filter kept_by_sanitizer body))
  /\ _additional_dependencies (snd (_clean_code (Module body) self)) = [].
Proof.
  intros Hall. rewrite clean_code_module, clean_body_dropped by assumption.
  split; reflexivity.
Qed.

End SanitizerFacts.

(** ** More on the environment *)

Lemma key_eqb_eq a b : key_eqb a b = true <-> a = b.
Proof.
  destruct a as [m|s], b as [n|t]; simpl; split; intros H; try discriminate.
  - apply Z.eqb_eq in H. now subst.
  - inversion H. apply Z.eqb_refl.
  - apply String.eqb_eq in H. now subst.
  - inversion H. apply String.eqb_refl.
Qed.

Lemma key_eqb_neq a b : key_eqb a b = false <-> a <> b.
Proof.
  rewrite <- key_eqb_eq. destruct (key_eqb a b); split; congruence.
Qed.

Lemma assoc_dict_set k k' v items :
  assoc k (dict_set k' v items) = if key_eqb k k' then Some v else assoc k items.
Proof.
  induction items as [|[k0 v0] rest IH]; simpl.
  - reflexivity.
  - destruct (key_eqb k' k0) eqn:H0; simpl.
    + apply key_eqb_eq in H0 as <-. now destruct (key_eqb k k').
    + rewrite IH. destruct (key_eqb k k0) eqn:Hk0; [|reflexivity].
      apply key_eqb_eq in Hk0 as ->. apply key_eqb_neq in H0.
      destruct (key_eqb k0 k') eqn:Hk; [|reflexivity].
      apply key_eqb_eq in Hk. congruence.
Qed.

Lemma assoc_whitelisted_builtins b names : forall items,
  assoc (KStr b)
    (fold_left (fun items builtin => dict_set (KStr builtin) (VBuiltin builtin) items)
       names items)
  = if py_in b names then Some (VBuiltin b) else assoc (KStr b) items.
Proof.
  unfold py_in. induction names as [|n rest IH]; intros items; simpl; [reflexivity|].
  rewrite IH, assoc_dict_set. simpl.
  destruct (existsb (String.eqb b) rest); [now rewrite orb_true_r|].
  rewrite orb_false_r. destruct (String.eqb b n) eqn:Hb; [|reflexivity].
  apply String.eqb_eq in Hb. now subst.
Qed.

(** X7: the builtins offered to the executed code are the whitelisted names,
    [__build_class__] and [__name__] (which is ["__main__"], whitelisted or
    not); no other name is there. *)
Theorem restricted_builtins_exposed WHITELISTED_BUILTINS b :
  assoc (KStr b) (restricted_builtins WHITELISTED_BUILTINS)
  = if String.eqb b "__name__" then Some (VStr "__main__")
    else if (String.eqb b "__build_class__" || py_in b WHITELISTED_BUILTINS)%bool
         then Some (VBuiltin b)
         else None.
Proof.
  unfold restricted_builtins.
  rewrite !assoc_dict_set, assoc_whitelisted_builtins. simpl.
  destruct (String.eqb b "__name__"); [reflexivity|].
  destruct (String.eqb b "__build_class__") eqn:Hb; simpl.
  - apply String.eqb_eq in Hb. now subst.
  - now destruct (py_in b WHITELISTED_BUILTINS).
Qed.

Section EnvironmentFacts.

Variable WHITELISTED_BUILTINS : list string.
Variable w : collaborators.

Local Abbreviation _get_environment := (_get_environment WHITELISTED_BUILTINS w).

Lemma bind_dependencies_dom libs : forall (env env' : namespace),
  bind_dependencies w libs env = Ok env' ->
  dom env' = dom env ∪ list_to_set (map dep_alias libs).
Proof.
  induction libs as [|lib rest IH]; intros env env' H; simpl in H.
  - inversion H. simpl. set_solver.
  - destruct (resolve_dependency w lib) as [v|e]; [|discriminate].
    apply IH in H. rewrite H, dom_insert_L. simpl. set_solver.
Qed.

Lemma bind_dependencies_ok libs : forall (env : namespace),
  (exists env', bind_dependencies w libs env = Ok env')
  <-> Forall (fun lib => exists m, import_dependency w (dep_module lib) = Ok m) libs.
Proof.
  induction libs as [|lib rest IH]; intros env; simpl.
  - split; [constructor | eauto].
  - unfold resolve_dependency.
    destruct (import_dependency w (dep_module lib)) as [m|e] eqn:Hm.
    + destruct (getattr w m (dep_name lib)); rewrite IH; split;
        try (intros H; constructor; eauto); intros H; now inversion H.
    + split; [intros [env' H]; discriminate|].
      intros H. inversion H as [|? ? [m Hm'] _]. congruence.
Qed.

Lemma bind_dependencies_raise libs : forall (env : namespace) e,
  bind_dependencies w libs env = Raise e ->
  Exists (fun lib => import_dependency w (dep_module lib) = Raise e) libs.
Proof.
  induction libs as [|lib rest IH]; intros env e H; simpl in H; [discriminate|].
  unfold resolve_dependency in H.
  destruct (import_dependency w (dep_module lib)) as [m|e'] eqn:Hm.
  - destruct (getattr w m (dep_name lib)); apply IH in H; now constructor 2.
  - constructor 1. congruence.
Qed.

(** X8: the environment [_get_environment] returns binds [pd],
    [__builtins__] and the aliases of the recorded dependencies, and no other
    name; [__builtins__] is always the restricted dictionary, also when an
    import used that alias; the instance is not changed. *)
Theorem environment_names self env self' :
  _get_environment self = (Ok env, self') ->
  self' = self
  /\ dom env
     = {[ "pd" ]} ∪ {[ "__builtins__" ]}
       ∪ list_to_set (map dep_alias (_additional_dependencies self))
  /\ env !! "__builtins__" = Some (VDict (restricted_builtins WHITELISTED_BUILTINS)).
Proof.
  intros H. apply get_environment_spec in H as [-> H].
  split; [reflexivity|].
  destruct (bind_dependencies w _ _) as [env1|e] eqn:Hdeps; [|discriminate].
  inversion H; subst. apply bind_dependencies_dom in Hdeps.
  split; [|apply lookup_insert_eq].
  rewrite dom_insert_L, Hdeps, dom_singleton_L. set_solver.
Qed.

(** X9: [_get_environment] succeeds exactly when every recorded dependency's
    module can be imported; when it raises, the error is the one
    [import_dependency] raised for one of them. *)
Theorem environment_needs_every_module self :
  ((exists env, _get_environment self = (Ok env, self))
   <-> Forall (fun lib => exists m, import_dependency w (dep_module lib) = Ok m)
         (_additional_dependencies self))
  /\ forall e,
       fst (_get_environment self) = Raise e ->
       Exists (fun lib => import_dependency w (dep_module lib) = Raise e)
         (_additional_dependencies self).
Proof.
  split.
  - rewrite <- (bind_dependencies_ok _ {[ "pd" := VModule "pandas" ]}). split.
    + intros [env H]. apply get_environment_spec in H as [_ H].
      destruct (bind_dependencies w _ _) as [env1|e]; [eauto|discriminate].
    + intros [env1 H]. unfold _get_environment, bind, get, lift, ret.
      rewrite H. eauto.
  - intros e H.
    destruct (_get_environment self) as [r s] eqn:Henv. simpl in H. subst r.
    apply get_environment_spec in Henv as [_ Henv].
    destruct (bind_dependencies w _ _) as [env1|e'] eqn:Hdeps; [discriminate|].
    inversion Henv; subst. eapply bind_dependencies_raise; eauto.
Qed.

Lemma bind_dependencies_last before lib after : forall (env env' : namespace),
  bind_dependencies w (before ++ lib :: after) env = Ok env' ->
  Forall (fun lib' => dep_alias lib' <> dep_alias lib) after ->
  Ok (A := value) <$> env' !! dep_alias lib = Some (resolve_dependency w lib).
Proof.
  induction before as [|lib0 rest IH]; intros env env' H Hall; simpl in H.
  - destruct (resolve_dependency w lib) as [v|e]; [|discriminate].
    erewrite bind_dependencies_other by eauto. now rewrite lookup_insert_eq.
  - destruct (resolve_dependency w lib0) as [v|e]; [|discriminate]. eauto.
Qed.

(** X10: an alias used by several imports is bound by the last of them, to
    the attribute of the module that carries the imported name when the
    module has it and to the module itself otherwise; [pd] is no exception,
    only [__builtins__] is. *)
Theorem last_import_binds_alias self env self' before lib after :
  _get_environment self = (Ok env, self') ->
  _additional_dependencies self = (before ++ lib :: after)%list ->
  Forall (fun lib' => dep_alias lib' <> dep_alias lib) after ->
  dep_alias lib <> "__builtins__" ->
  exists m,
    import_dependency w (dep_module lib) = Ok m
    /\ env !! dep_alias lib
       = Some (match getattr w m (dep_name lib) with
               | Some attribute => attribute
               | None => m
               end).
Proof.
  intros H Hdeps Hlast Hne. apply get_environment_spec in H as [_ H].
  rewrite Hdeps in H.
  destruct (bind_dependencies w _ _) as [env1|e] eqn:Hbind; [|discriminate].
  inversion H; subst. apply bind_dependencies_last in Hbind; [|assumption].
  rewrite lookup_insert_ne by congruence.
  unfold resolve_dependency in Hbind.
  destruct (import_dependency w (dep_module lib)) as [m|e] eqn:Hm.
  - exists m. split; [reflexivity|].
    destruct (env1 !! dep_alias lib); simpl in Hbind; [|discriminate].
    destruct (getattr w m (dep_name lib)); now inversion Hbind.
  - destruct (env1 !! dep_alias lib); discriminate.
Qed.

End EnvironmentFacts.

(** ** More on the retry loop and [run_code] *)

Lemma only_trace_refl self : only_trace self self.
Proof. unfold only_trace. now destruct self. Qed.

Lemma only_trace_trans s1 s2 s3 : only_trace s1 s2 -> only_trace s2 s3 -> only_trace s1 s3.
Proof. unfold only_trace. intros H12 H23. rewrite H23 at 1. now rewrite H12. Qed.

Ltac preserves_only_trace :=
  preserves_with only_trace_refl only_trace_trans ltac:(reflexivity).

Section LoopFacts.

Variables WHITELISTED_BUILTINS WHITELISTED_LIBRARIES : list string.
Variable w : collaborators.

Local Abbreviation run_code_setup := (run_code_setup WHITELISTED_BUILTINS WHITELISTED_LIBRARIES w).
Local Abbreviation run_code := (run_code WHITELISTED_BUILTINS WHITELISTED_LIBRARIES w).
Local Abbreviation retry_loop := (retry_loop w).

Lemma retry_run_code_only_trace code e multiple :
  preserves only_trace (_retry_run_code w code e multiple).
Proof. unfold _retry_run_code, generate_code. preserves_only_trace. Qed.

Lemma retry_loop_only_trace ecf remaining : forall code code_to_run env,
  preserves only_trace (retry_loop ecf remaining code code_to_run env).
Proof.
  induction remaining as [|n IH]; intros code code_to_run env; simpl.
  - preserves_only_trace.
  - destruct (exec code_to_run env) as [env' raised].
    apply (preserves_bind _ only_trace_trans); [preserves_only_trace|intros _].
    destruct raised as [e|]; [|preserves_only_trace].
    destruct (negb ecf); [preserves_only_trace|].
    apply (preserves_bind _ only_trace_trans);
      [apply retry_run_code_only_trace | intros c; apply IH].
Qed.


Lemma retry_loop_counts ecf remaining : forall code code_to_run env self r self',
  retry_loop ecf remaining code code_to_run env self = (r, self') ->
  exists new : list event,
    trace self' = (trace self ++ new)%list
    /\ (executions new <= remaining)%nat
    /\ (corrections new <= executions new)%nat
    /\ cleanings new = O
    /\ count is_call new = O
    /\ count is_generation new = O.
Proof.
  induction remaining as [|n IH]; intros code code_to_run env self r self' H.
  - simpl in H. prim H. exists []. rewrite app_nil_r. now repeat split.
  - apply retry_loop_turn in H as (env' & raised & Hexec & H). simpl in H.
    destruct raised as [e|].
    + destruct ecf.
      * destruct (_original_instructions self) as [oi|].
        -- destruct (llm_generate_code w _ _) as [c'|e'].
           ++ apply IH in H as (new & Ht & Hx & Hc & Hcl & Hca & Hg).
              eexists (EExec _ _ _ _ :: EGenerateCode _ :: new).
              split; [rewrite Ht; simpl; now rewrite <- !app_assoc|].
              unfold executions, corrections, cleanings in *. simpl.
              repeat split; auto; lia.
           ++ destruct H as [_ ->]. eexists [EExec _ _ _ _; EGenerateCode _].
              split; [simpl; now rewrite <- app_assoc|].
              unfold executions, corrections, cleanings. simpl.
              repeat split; auto; lia.
        -- destruct H as [_ ->]. eexists [EExec _ _ _ _].
           split; [reflexivity|].
           unfold executions, corrections, cleanings. simpl. repeat split; auto; lia.
      * destruct H as [_ ->]. eexists [EExec _ _ _ _].
        split; [reflexivity|].
        unfold executions, corrections, cleanings. simpl. repeat split; auto; lia.
    + destruct H as [_ ->]. eexists [EExec _ _ _ _].
      split; [reflexivity|].
      unfold executions, corrections, cleanings. simpl. repeat split; auto; lia.
Qed.

Lemma retry_loop_attempts ecf remaining : forall code code_to_run env self r self',
  retry_loop ecf remaining code code_to_run env self = (r, self') ->
  exists new : list event,
    trace self' = (trace self ++ new)%list
    /\ (attempts new = [] -> r = Ok env)
    /\ forall l a,
         attempts new = (l ++ [a])%list ->
         Forall (fun a' => attempt_raised_exn a' <> None) l
         /\ (attempt_raised_exn a = None -> r = Ok (attempt_after a)).
Proof.
  induction remaining as [|n IH]; intros code code_to_run env self r self' H.
  - simpl in H. prim H. exists []. rewrite app_nil_r.
    split; [reflexivity|]. split; [reflexivity|].
    intros l a Hl. destruct l; discriminate.
  - apply retry_loop_turn in H as (env' & raised & Hexec & H). simpl in H.
    assert (Hone : forall new : list event,
               trace self' = (trace self ++ new)%list ->
               attempts new = [Attempt code_to_run env env' raised] ->
               (raised = None -> r = Ok env') ->
               exists new : list event,
                 trace self' = (trace self ++ new)%list
                 /\ (attempts new = [] -> r = Ok env)
                 /\ forall l a,
                      attempts new = (l ++ [a])%list ->
                      Forall (fun a' => attempt_raised_exn a' <> None) l
                      /\ (attempt_raised_exn a = None -> r = Ok (attempt_after a))).
    { intros new Ht Hnew Hr. exists new. split; [exact Ht|]. rewrite Hnew.
      split; [discriminate|]. intros l a Hl.
      destruct l as [|a0 [|a1 l]]; try discriminate.
      inversion Hl; subst. split; [constructor|exact Hr]. }
    destruct raised as [e|].
    + destruct ecf.
      * destruct (_original_instructions self) as [oi|].
        -- destruct (llm_generate_code w _ _) as [c'|e'].
           ++ apply IH in H as (new & Ht & Hnil & Hlast).
              eexists (EExec _ _ _ _ :: EGenerateCode _ :: new).
              split; [rewrite Ht; simpl; now rewrite <- !app_assoc|].
              simpl. split; [discriminate|]. intros l a Hl.
              destruct l as [|a0 l]; simpl in Hl; injection Hl as Ha Hrest.
              ** subst a. split; [constructor|discriminate].
              ** subst a0. apply Hlast in Hrest as [Hall Hr].
                 split; [constructor; [discriminate|assumption]|assumption].
           ++ destruct H as [_ ->].
              eapply (Hone [EExec _ _ _ _; EGenerateCode _]);
                [simpl; now rewrite <- app_assoc|reflexivity|discriminate].
        -- destruct H as [_ ->].
           eapply (Hone [EExec _ _ _ _]); [reflexivity|reflexivity|discriminate].
      * destruct H as [_ ->].
        eapply (Hone [EExec _ _ _ _]); [reflexivity|reflexivity|discriminate].
    + destruct H as [-> ->].
      eapply (Hone [EExec _ _ _ _]); [reflexivity|reflexivity|reflexivity].
Qed.

Lemma retry_loop_prompts ecf remaining oi : forall code code_to_run env self r self',
  retry_loop ecf remaining code code_to_run env self = (r, self') ->
  _original_instructions self = Some oi ->
  exists new : list event,
    trace self' = (trace self ++ new)%list
    /\ correction_prompts new
       = if ecf
         then map (fun e => CorrectErrorPrompt code e (question oi) (df_head oi)
                              (num_rows oi) (num_columns oi))
                (failures (attempts new))
         else [].
Proof.
  induction remaining as [|n IH]; intros code code_to_run env self r self' H Hoi.
  - simpl in H. prim H. exists []. rewrite app_nil_r. now destruct ecf.
  - apply retry_loop_turn in H as (env' & raised & Hexec & H). simpl in H.
    rewrite Hoi in H.
    destruct raised as [e|].
    + destruct ecf.
      * destruct (llm_generate_code w _ _) as [c'|e'].
        -- apply IH in H as (new & Ht & Hp); [|exact Hoi].
           eexists (EExec _ _ _ _ :: EGenerateCode _ :: new).
           split; [rewrite Ht; simpl; now rewrite <- !app_assoc|].
           simpl. now rewrite Hp.
        -- destruct H as [_ ->]. eexists [EExec _ _ _ _; EGenerateCode _].
           split; [simpl; now rewrite <- app_assoc|reflexivity].
      * destruct H as [_ ->]. eexists [EExec _ _ _ _]. now split.
    + destruct H as [_ ->]. eexists [EExec _ _ _ _]. split; [reflexivity|].
      now destruct ecf.
Qed.

(** [run_code] on one table: the set-up, then the loop. *)
Lemma run_code_single_run code data_frame ecf self code' code_to_run env s r self' :
  is_list data_frame = false ->
  run_code_setup code self = (Ok (code', code_to_run, env), s) ->
  run_code code data_frame ecf self = (r, self') ->
  exists r1 (new0 : list event),
    retry_loop ecf (Z.to_nat (Config.max_retries (_config self))) code' code_to_run
      (<["df" := data_frame]> env) s = (r1, self')
    /\ r = match r1 with
           | Ok env' => Ok (default VNone (env' !! "result"))
           | Raise e => Raise e
           end
    /\ trace s = (trace self ++ new0)%list
    /\ (new0 = [] \/ exists c, new0 = [ECleanCode c]).
Proof.
  intros Hsingle Hsetup Hrun.
  rewrite run_code_single, Hsetup in Hrun by assumption.
  apply run_code_setup_spec in Hsetup as ((new0 & Ht0 & Hnew0) & _).
  destruct (retry_loop ecf _ code' code_to_run _ s) as [r1 s1].
  exists r1, new0.
  destruct r1; inversion Hrun; subst; auto.
Qed.

Lemma events_since_two self s self' (new0 new1 : list event) :
  trace s = (trace self ++ new0)%list ->
  trace self' = (trace s ++ new1)%list ->
  events_since self self' = (new0 ++ new1)%list.
Proof. intros H0 H1. apply events_since_app. now rewrite H1, H0, app_assoc. Qed.

Lemma run_code_counts code data_frame ecf self :
  exists new : list event,
    trace (snd (run_code code data_frame ecf self)) = (trace self ++ new)%list
    /\ (executions new <= Z.to_nat (Config.max_retries (_config self)))%nat
    /\ (corrections new <= executions new)%nat
    /\ (cleanings new <= 1)%nat
    /\ count is_call new = O
    /\ count is_generation new = O.
Proof.
  assert (Hquiet : forall new0 : list event,
             new0 = [] \/ (exists c, new0 = [ECleanCode c]) ->
             executions new0 = O /\ corrections new0 = O /\ (cleanings new0 <= 1)%nat
             /\ count is_call new0 = O /\ count is_generation new0 = O).
  { intros new0 [->|[c ->]]; unfold cleanings; simpl; repeat split; lia. }
  destruct (run_code code data_frame ecf self) as [r self'] eqn:Hrun. simpl.
  destruct (run_code_setup code self) as [[[[code' code_to_run] env]|e] s] eqn:Hsetup.
  - destruct (is_list data_frame) eqn:Hlist.
    + rewrite run_code_unfold, Hsetup in Hrun.
      destruct data_frame; try discriminate. inversion Hrun; subst.
      apply run_code_setup_spec in Hsetup as ((new0 & Ht0 & Hnew0) & _).
      exists new0. split; [exact Ht0|].
      destruct (Hquiet _ Hnew0) as (-> & -> & ? & ? & ?).
      repeat split; auto; lia.
    + destruct (run_code_single_run _ _ _ _ _ _ _ _ _ _ Hlist Hsetup Hrun)
        as (r1 & new0 & Hloop & _ & Ht0 & Hnew0).
      apply retry_loop_counts in Hloop as (new1 & Ht1 & Hx & Hc & Hcl & Hca & Hg).
      exists (new0 ++ new1)%list.
      split; [now rewrite Ht1, Ht0, app_assoc|].
      destruct (Hquiet _ Hnew0) as (Hx0 & Hc0 & Hcl0 & Hca0 & Hg0).
      unfold executions, corrections, cleanings in *. rewrite !count_app.
      repeat split; lia.
  - rewrite run_code_unfold, Hsetup in Hrun. inversion Hrun; subst.
    apply run_code_setup_spec in Hsetup as ((new0 & Ht0 & Hnew0) & _).
    exists new0. split; [exact Ht0|].
    destruct (Hquiet _ Hnew0) as (-> & -> & ? & ? & ?).
    repeat split; auto; lia.
Qed.

(** X11: whatever the attempts do and whatever the model answers, one call of
    [run_code] makes at most [max_retries] execution attempts, at most one
    correction request per attempt, runs the sanitizer at most once, and
    sends the model nothing but correction requests. *)
Theorem budget_never_exceeded code data_frame ecf self :
  let new := events_since self (snd (run_code code data_frame ecf self)) in
  (executions new <= Z.to_nat (Config.max_retries (_config self)))%nat
  /\ (corrections new <= executions new)%nat
  /\ (cleanings new <= 1)%nat
  /\ count is_call new = O
  /\ count is_generation new = O.
Proof.
  destruct (run_code_counts code data_frame ecf self) as (new & Ht & H).
  simpl. now rewrite (events_since_app _ _ _ Ht).
Qed.

Lemma run_code_keeps_config code data_frame ecf self :
  _config (snd (run_code code data_frame ecf self)) = _config self.
Proof.
  destruct (run_code code data_frame ecf self) as [r self'] eqn:Hrun. simpl.
  rewrite run_code_unfold in Hrun.
  destruct (run_code_setup code self) as [[[[code' code_to_run] env]|e] s] eqn:Hsetup;
    apply run_code_setup_spec in Hsetup as (_ & (Hcfg & _) & _).
  - assert (Hs : _config s = _config self) by exact Hcfg.
    assert (Hloop : forall r1 s1,
               retry_loop ecf (Z.to_nat (Config.max_retries (_config self))) code'
                 code_to_run (<["df" := data_frame]> env) s = (r1, s1) ->
               _config s1 = _config self).
    { intros r1 s1 H. apply retry_loop_only_trace in H. unfold only_trace in H.
      rewrite H. simpl. exact Hs. }
    destruct (retry_loop ecf _ code' code_to_run _ s) as [r1 s1] eqn:Hl.
    specialize (Hloop _ _ eq_refl).
    destruct data_frame, r1; inversion Hrun; subst; auto.
  - inversion Hrun; subst. exact Hcfg.
Qed.

Lemma attempts_of_setup (new0 new1 : list event) :
  new0 = [] \/ (exists c, new0 = [ECleanCode c]) ->
  attempts (new0 ++ new1)%list = attempts new1
  /\ correction_prompts (new0 ++ new1)%list = correction_prompts new1.
Proof. intros [->|[c ->]]; split; reflexivity. Qed.

(** X12: in a call of [run_code] on one table every attempt but the last one
    raised: nothing is executed after an attempt that went through, and the
    value returned is then read from the environment that attempt left. *)
Theorem success_ends_the_loop code data_frame ecf self code' code_to_run env s r self' l a :
  is_list data_frame = false ->
  run_code_setup code self = (Ok (code', code_to_run, env), s) ->
  run_code code data_frame ecf self = (r, self') ->
  attempts (events_since self self') = (l ++ [a])%list ->
  Forall (fun a' => attempt_raised_exn a' <> None) l
  /\ (attempt_raised_exn a = None ->
      r = Ok (default VNone (attempt_after a !! "result"))).
Proof.
  intros Hsingle Hsetup Hrun Hl.
  destruct (run_code_single_run _ _ _ _ _ _ _ _ _ _ Hsingle Hsetup Hrun)
    as (r1 & new0 & Hloop & -> & Ht0 & Hnew0).
  apply retry_loop_attempts in Hloop as (new1 & Ht1 & _ & Hlast).
  rewrite (events_since_two _ _ _ _ _ Ht0 Ht1) in Hl.
  rewrite (proj1 (attempts_of_setup _ new1 Hnew0)) in Hl.
  apply Hlast in Hl as [Hall Hr]. split; [exact Hall|].
  intros Hnone. now rewrite (Hr Hnone).
Qed.

(** X13: with error correction enabled, every attempt that raises is followed
    by exactly one correction request, which quotes the error of that
    attempt, the code [run_code] was called with (after chart
    instrumentation, before sanitization) and the stored instructions; it
    never quotes the corrected code that has just failed.  With error
    correction disabled there is no correction request. *)
Theorem corrections_quote_the_original code data_frame ecf self code' code_to_run env s
    r self' oi :
  is_list data_frame = false ->
  run_code_setup code self = (Ok (code', code_to_run, env), s) ->
  run_code code data_frame ecf self = (r, self') ->
  _original_instructions self = Some oi ->
  correction_prompts (events_since self self')
  = if ecf
    then map (fun e => CorrectErrorPrompt code' e (question oi) (df_head oi)
                         (num_rows oi) (num_columns oi))
           (failures (attempts (events_since self self')))
    else [].
Proof.
  intros Hsingle Hsetup Hrun Hoi.
  destruct (run_code_single_run _ _ _ _ _ _ _ _ _ _ Hsingle Hsetup Hrun)
    as (r1 & new0 & Hloop & -> & Ht0 & Hnew0).
  apply run_code_setup_spec in Hsetup as (_ & _ & Ho). rewrite <- Ho in Hoi.
  apply (retry_loop_prompts _ _ oi) in Hloop as (new1 & Ht1 & Hp); [|exact Hoi].
  rewrite (events_since_two _ _ _ _ _ Ht0 Ht1).
  destruct (attempts_of_setup _ new1 Hnew0) as [-> ->]. exact Hp.
Qed.

Lemma run_code_without_instructions code data_frame self code' code_to_run env s env' e :
  is_list data_frame = false ->
  run_code_setup code self = (Ok (code', code_to_run, env), s) ->
  _original_instructions self = None ->
  0 < Config.max_retries (_config self) ->
  exec code_to_run (<["df" := data_frame]> env) = (env', Some e) ->
  run_code code data_frame true self
  = (Raise (AttributeError "'DataFrame' object has no attribute '_original_instructions'"),
     set_trace (trace s ++ [EExec code_to_run (<["df" := data_frame]> env) env' (Some e)]) s).
Proof.
  intros Hsingle Hsetup Hnone Hbudget Hexec.
  destruct (run_code code data_frame true self) as [r self'] eqn:Hrun.
  destruct (run_code_single_run _ _ _ _ _ _ _ _ _ _ Hsingle Hsetup Hrun)
    as (r1 & new0 & Hloop & -> & Ht0 & Hnew0).
  apply run_code_setup_spec in Hsetup as (_ & _ & Ho). rewrite <- Ho in Hnone.
  destruct (Z.to_nat (Config.max_retries (_config self))) as [|n] eqn:Hn; [lia|].
  apply retry_loop_turn in Hloop as (env1 & raised & Hexec' & H).
  rewrite Hexec in Hexec'. inversion Hexec'; subst. simpl in H.
  rewrite Hnone in H. now destruct H as [-> ->].
Qed.

(** X14: when the instance holds no original instructions (no question has
    gone through generation on it) and the first attempt raises, the
    correction prompt cannot be built: [run_code] raises [AttributeError]
    after this one attempt, without any request to the model. *)
Theorem correction_without_instructions code data_frame self code' code_to_run env s env' e :
  is_list data_frame = false ->
  run_code_setup code self = (Ok (code', code_to_run, env), s) ->
  _original_instructions self = None ->
  0 < Config.max_retries (_config self) ->
  exec code_to_run (<["df" := data_frame]> env) = (env', Some e) ->
  fst (run_code code data_frame true self)
  = Raise (AttributeError "'DataFrame' object has no attribute '_original_instructions'")
  /\ executions (events_since self (snd (run_code code data_frame true self))) = 1%nat
  /\ llm_requests (snd (run_code code data_frame true self)) = llm_requests self.
Proof.
  intros Hsingle Hsetup Hnone Hbudget Hexec.
  rewrite (run_code_without_instructions _ _ _ _ _ _ _ _ _ Hsingle Hsetup Hnone Hbudget Hexec).
  simpl. split; [reflexivity|].
  apply run_code_setup_spec in Hsetup as ((new0 & Ht0 & Hnew0) & _).
  split.
  - unfold events_since. simpl. rewrite Ht0, <- app_assoc, drop_app_length.
    now destruct Hnew0 as [->|[c ->]].
  - unfold llm_requests. simpl. rewrite Ht0, !count_app. simpl.
    destruct Hnew0 as [->|[c ->]]; simpl; lia.
Qed.

(** X15: with a budget of zero or less the code is never executed: [run_code]
    on one table returns at once what the freshly built environment binds to
    [result], that is [None] unless an import used that alias. *)
Theorem zero_budget_runs_nothing code data_frame ecf self code' code_to_run env s :
  is_list data_frame = false ->
  run_code_setup code self = (Ok (code', code_to_run, env), s) ->
  Config.max_retries (_config self) <= 0 ->
  run_code code data_frame ecf self = (Ok (default VNone (env !! "result")), s)
  /\ executions (events_since self s) = O.
Proof.
  intros Hsingle Hsetup Hbudget.
  rewrite run_code_single, Hsetup by assumption.
  replace (Z.to_nat (Config.max_retries (_config self))) with O by lia. simpl.
  unfold ret. rewrite lookup_insert_ne by discriminate.
  split; [reflexivity|].
  apply run_code_setup_spec in Hsetup as ((new0 & Ht0 & Hnew0) & _).
  rewrite (events_since_app _ _ _ Ht0). now destruct Hnew0 as [->|[c ->]].
Qed.

Lemma run_code_setup_records code self code' code_to_run env s :
  run_code_setup code self = (Ok (code', code_to_run, env), s) ->
  last_code_executed s = Some code_to_run.
Proof.
  unfold run_code_setup. intros H.
  apply bind_inv in H as [(s0 & s1 & Hm & H) | (e & Hm & Hr)]; [prim Hm|discriminate].
  apply bind_inv in H as [(c & s2 & _ & H) | (e & _ & Hr)]; [|discriminate].
  apply bind_inv in H as [(c2 & s3 & _ & H) | (e & _ & Hr)]; [|discriminate].
  apply bind_inv in H as [(u & s4 & Hm & H) | (e & _ & Hr)]; [prim Hm|discriminate].
  apply bind_inv in H as [(env0 & s5 & Henv & H) | (e & _ & Hr)]; [|discriminate].
  apply get_environment_spec in Henv as [-> _]. prim H. reflexivity.
Qed.

(** X16: after a call of [run_code] on one table, [last_code_executed] is the
    sanitized form of the code the call was given, and the dependency list is
    the one of that sanitization, also when corrected code was executed
    afterwards: the retries change nothing on the instance but the trace. *)
Theorem retries_leave_no_record code data_frame ecf self code' code_to_run env s r self' :
  is_list data_frame = false ->
  run_code_setup code self = (Ok (code', code_to_run, env), s) ->
  run_code code data_frame ecf self = (r, self') ->
  last_code_executed self' = Some code_to_run
  /\ _additional_dependencies self' = _additional_dependencies s.
Proof.
  intros Hsingle Hsetup Hrun.
  destruct (run_code_single_run _ _ _ _ _ _ _ _ _ _ Hsingle Hsetup Hrun)
    as (r1 & new0 & Hloop & _ & _ & _).
  apply retry_loop_only_trace in Hloop. unfold only_trace in Hloop.
  rewrite Hloop. simpl. split; [|reflexivity].
  eapply run_code_setup_records; eauto.
Qed.

End LoopFacts.

(** ** More on the query entry point *)

Lemma no_call_refl self : no_call self self.
Proof. exists []. now rewrite app_nil_r. Qed.

Lemma no_call_trans s1 s2 s3 : no_call s1 s2 -> no_call s2 s3 -> no_call s1 s3.
Proof.
  intros (n1 & H1 & C1) (n2 & H2 & C2). exists (n1 ++ n2)%list.
  split; [now rewrite H2, H1, app_assoc|]. rewrite count_app. lia.
Qed.

Ltac preserves_no_call :=
  preserves_with no_call_refl no_call_trans
    ltac:(first [ exists []; split; [simpl; now rewrite app_nil_r | reflexivity]
                | eexists [_]; split; reflexivity ]).

Section QueryFacts.

Variables WHITELISTED_BUILTINS WHITELISTED_LIBRARIES : list string.
Variable w : collaborators.

Local Abbreviation run_code_setup := (run_code_setup WHITELISTED_BUILTINS WHITELISTED_LIBRARIES w).
Local Abbreviation run_code := (run_code WHITELISTED_BUILTINS WHITELISTED_LIBRARIES w).
Local Abbreviation obtain_code := (obtain_code w).
Local Abbreviation classify := (classify w).
Local Abbreviation query_pipeline := (query_pipeline WHITELISTED_BUILTINS WHITELISTED_LIBRARIES w).
Local Abbreviation query := (query WHITELISTED_BUILTINS WHITELISTED_LIBRARIES w).

Lemma obtain_code_no_call q : preserves no_call (obtain_code q).
Proof. unfold obtain_code, generate_code. preserves_no_call. Qed.

Lemma conversational_step_quiet q output self r self' :
  Config.enforce_privacy (_config self) = true
  \/ Config.conversational_answer (_config self) = false ->
  (if Config.conversational_answer (_config self)
   then answer <- lift (py_getitem (series_getitem w) output (KStr "result"));;
        conversational_answer w q answer
   else ret output) self = (r, self') ->
  self' = self.
Proof.
  intros Hcfg H.
  destruct (Config.conversational_answer (_config self)) eqn:Hconv; [|now prim H].
  destruct Hcfg as [Hprivacy|]; [|discriminate].
  apply bind_inv in H as [(answer & s & Hm & H) | (e & Hm & ->)]; prim Hm;
    [|reflexivity].
  unfold conversational_answer in H.
  apply bind_inv in H as [(s0 & s1 & Hm & H) | (e & Hm & ->)]; prim Hm.
  rewrite Hprivacy in H. now prim H.
Qed.

Lemma new_SmartDataframe_quiet df self r self' :
  new_SmartDataframe w df self = (r, self') -> trace self' = trace self.
Proof.
  unfold new_SmartDataframe. intros H.
  apply bind_inv in H as [(s0 & s & Hm & H) | (e & Hm & ->)]; prim Hm.
  apply bind_inv in H as [(u & s1 & Hm & H) | (e & Hm & ->)]; prim Hm;
    [|reflexivity].
  apply bind_inv in H as [(u1 & s2 & Hm & H) | (e & Hm & ->)]; prim Hm.
  apply bind_inv in H as [(u2 & s3 & Hm & H) | (e & Hm & ->)].
  - assert (Hs : trace s3 = trace s1)
      by (destruct (Config.enable_cache _); prim Hm; reflexivity).
    destruct df; prim H; exact Hs.
  - destruct (Config.enable_cache _); prim Hm; reflexivity.
Qed.

Lemma classify_quiet q results self r self' :
  Config.enforce_privacy (_config self) = true
  \/ Config.conversational_answer (_config self) = false ->
  classify q results self = (r, self') ->
  trace self' = trace self.
Proof.
  intros Hcfg H. unfold classify in H.
  apply bind_inv in H as [(s0 & s & Hm & H) | (e & Hm & ->)]; prim Hm.
  apply bind_inv in H as [(n & s1 & Hm & H) | (e & Hm & ->)]; prim Hm; [|reflexivity].
  destruct (1 <? n); [|now prim H].
  apply bind_inv in H as [(output & s2 & Hm & H) | (e & Hm & ->)]; prim Hm;
    [|reflexivity].
  apply bind_inv in H as [(output' & s3 & Hconv & H) | (e & Hconv & ->)];
    apply conversational_step_quiet in Hconv; try assumption; subst;
    [|reflexivity].
  cbv [bind get lift ret] in H.
  repeat
    match type of H with
    | context [match ?x with _ => _ end] => destruct x eqn:?
    | context [if ?x then _ else _] => destruct x eqn:?
    end;
    inversion H; subst; try reflexivity;
    eapply new_SmartDataframe_quiet; eassumption.
Qed.

(** X19: when privacy is enforced, or conversational answers are off, a
    query never calls [llm.call]: no result value is sent to the model to be
    restated. *)
Theorem private_results_stay_local q self :
  Config.enforce_privacy (_config self) = true
  \/ Config.conversational_answer (_config self) = false ->
  count is_call (events_since self (snd (query q self))) = O.
Proof.
  intros Hcfg.
  assert (Hend : no_call self (snd (query q self))).
  { rewrite query_unfold, query_pipeline_unfold.
    set (s0 := set_last_prompt_id (uuid4 w) self).
    assert (H0 : no_call self s0) by (exists []; now rewrite app_nil_r).
    destruct (obtain_code q s0) as [[code|e] s1] eqn:Hobtain;
      pose proof (obtain_code_no_call _ _ _ _ Hobtain) as H1;
      pose proof (obtain_code_kept _ _ _ _ _ Hobtain) as (Hcfg1 & _);
      [|simpl; eapply no_call_trans; [exact H0|];
        destruct H1 as (n & Ht & Hc); exists n; now split].
    destruct (run_code_counts WHITELISTED_BUILTINS WHITELISTED_LIBRARIES w code
                (VTable (_df s1))
                (Config.use_error_correction_framework (_config s1)) s1)
      as (n2 & Ht2 & _ & _ & _ & Hc2 & _).
    pose proof (run_code_keeps_config WHITELISTED_BUILTINS WHITELISTED_LIBRARIES w code
                  (VTable (_df s1))
                  (Config.use_error_correction_framework (_config s1)) s1) as Hcfg2.
    destruct (run_code code _ _ s1) as [[results|e] s2]; simpl in Ht2, Hcfg2.
    - assert (H2 : no_call self (set_last_result (Some results) s2)).
      { eapply no_call_trans; [exact H0|]. eapply no_call_trans; [exact H1|].
        exists n2. now split. }
      destruct (classify q results (set_last_result (Some results) s2)) as [[v|e] s3]
        eqn:Hclassify;
        apply classify_quiet in Hclassify;
        try (simpl; rewrite Hcfg2, Hcfg1; exact Hcfg);
        simpl; destruct H2 as (n & Ht & Hc); exists n;
        (split; [simpl in *; congruence|exact Hc]).
    - simpl. eapply no_call_trans; [exact H0|]. eapply no_call_trans; [exact H1|].
      exists n2. now split. }
  destruct Hend as (new & Ht & Hc). now rewrite (events_since_app _ _ _ Ht).
Qed.


(** X21: with error correction disabled and a positive budget, when the one
    attempt of a query raises, [query] returns the text "Unfortunately, I
    was not able to answer your question, because of the following error:",
    an empty line, the text of the error of that attempt and a newline, and
    records that text in [last_error]. *)
Theorem uncorrected_error_is_reported q self code s1 code' code_to_run env s2 env' e :
  Config.use_error_correction_framework (_config self) = false ->
  obtain_code q (set_last_prompt_id (uuid4 w) self) = (Ok code, s1) ->
  run_code_setup code s1 = (Ok (code', code_to_run, env), s2) ->
  0 < Config.max_retries (_config self) ->
  exec code_to_run (<["df" := VTable (_df self)]> env) = (env', Some e) ->
  fst (query q self)
  = Ok (VStr ("Unfortunately, I was not able to answer your question, because of the following error:"
              +:+ nl +:+ nl +:+ str_exn e +:+ nl))
  /\ last_error (snd (query q self)) = Some (str_exn e).
Proof.
  intros Hoff Hobtain Hsetup Hbudget Hexec.
  pose proof (obtain_code_kept _ _ _ _ _ Hobtain) as (Hcfg & Hdf & _).
  simpl in Hcfg, Hdf.
  rewrite query_unfold, query_pipeline_unfold, Hobtain, Hcfg, Hdf, Hoff.
  pose proof (execution_failure_escapes WHITELISTED_BUILTINS WHITELISTED_LIBRARIES w
                code (VTable (_df self)) s1 code' code_to_run env s2 env' e
                eq_refl Hsetup) as Hrun.
  rewrite Hcfg in Hrun. specialize (Hrun Hbudget Hexec).
  destruct (run_code code _ false s1) as [r s3]. simpl in Hrun. subst r.
  split; reflexivity.
Qed.

Lemma obtain_code_cache_hit q self code :
  Config.enable_cache (_config self) = true ->
  cache_get w q = Ok (Hit code) ->
  obtain_code q self
  = (apply_middlewares (_middlewares self) code,
     set_last_code_generated (Some code) self).
Proof.
  intros Hcache Hget. unfold obtain_code, bind, get, lift, ret, modify.
  now rewrite Hcache, Hget.
Qed.

(** X17: when the cache holds code for the question (a string that is not
    empty), the model is not asked to generate, and the instructions that a
    correction request needs are not stored.  On an instance that holds
    none, cached code whose first attempt raises is therefore not corrected:
    the query makes no request to the model and returns the text
    "Unfortunately, I was not able to answer your question, because of the
    following error:", an empty line, and the text of the [AttributeError]
    for [_original_instructions]. *)
Theorem cached_code_is_not_corrected q self code code1 code' code_to_run env s env' e :
  Config.enable_cache (_config self) = true ->
  cache_get w q = Ok (Hit code) ->
  apply_middlewares (_middlewares self) code = Ok code1 ->
  _original_instructions self = None ->
  Config.use_error_correction_framework (_config self) = true ->
  0 < Config.max_retries (_config self) ->
  run_code_setup code1
    (set_last_code_generated (Some code) (set_last_prompt_id (uuid4 w) self))
  = (Ok (code', code_to_run, env), s) ->
  exec code_to_run (<["df" := VTable (_df self)]> env) = (env', Some e) ->
  fst (query q self)
  = Ok (VStr ("Unfortunately, I was not able to answer your question, because of the following error:"
              +:+ nl +:+ nl
              +:+ "'DataFrame' object has no attribute '_original_instructions'"
              +:+ nl))
  /\ llm_requests (snd (query q self)) = llm_requests self.
Proof.
  intros Hcache Hget Hmw Hnone Hon Hbudget Hsetup Hexec.
  rewrite query_unfold, query_pipeline_unfold.
  rewrite (obtain_code_cache_hit _ _ code) by assumption. simpl.
  rewrite Hmw, Hon.
  rewrite (run_code_without_instructions WHITELISTED_BUILTINS WHITELISTED_LIBRARIES w
             code1 (VTable (_df self)) _ code' code_to_run env s env' e
             eq_refl Hsetup Hnone Hbudget Hexec).
  simpl. split; [reflexivity|].
  apply run_code_setup_spec in Hsetup as ((new0 & Ht0 & Hnew0) & _).
  unfold llm_requests. simpl in *. rewrite Ht0, !count_app. simpl.
  destruct Hnew0 as [->|[c ->]]; simpl; lia.
Qed.

(** How [obtain_code] ends, spelled out. *)
Lemma obtain_code_cases q self r self' :
  obtain_code q self = (r, self') ->
  (self' = self /\ exists e, r = Raise e)
  \/ (exists code,
        r = apply_middlewares (_middlewares self) code
        /\ self' = set_last_code_generated (Some code) self)
  \/ (exists sample,
        head_to_csv w (_df self)
          (if Config.enforce_privacy (_config self) then 0%nat else 5%nat)
          (Config.anonymize_dataframe (_config self)) = Ok sample
        /\ let i := GeneratePythonCodePrompt q sample (table_rows (_df self))
                      (length (table_columns (_df self))) (_engine self) in
           let s1 := set_trace (trace self ++ [EGenerateCode i]) self in
           (self' = s1 /\ exists e, r = Raise e)
           \/ (exists code,
                 llm_generate_code w (llm_requests self) i = Ok code
                 /\ let s2 := set_original_instructions
                                (Some {| question := q;
                                         df_head := sample;
                                         num_rows := table_rows (_df self);
                                         num_columns := length (table_columns (_df self)) |})
                                s1 in
                    (self' = s2 /\ exists e, r = Raise e)
                    \/ (r = apply_middlewares (_middlewares self) code
                        /\ self' = set_last_code_generated (Some code) s2))).
Proof.
  unfold obtain_code, generate_code.
  cbv [bind get lift ret emit modify]. intros H.
  destruct (Config.enable_cache (_config self)) eqn:Hcache.
  - destruct (cache_get w q) as [[|code]|e]; [| |inversion H; subst; left; eauto].
    2: { inversion H; subst. right. left. eauto. }
    + destruct (head_to_csv w _ _ _) as [sample|e]; [|inversion H; subst; left; eauto].
      right. right. exists sample. split; [reflexivity|]. simpl.
      destruct (llm_generate_code w _ _) as [code|e];
        [|inversion H; subst; left; eauto].
      right. exists code. split; [reflexivity|].
      destruct (cache_set w q code) as [[]|e]; inversion H; subst;
        [right; split; reflexivity | left; eauto].
  - destruct (head_to_csv w _ _ _) as [sample|e]; [|inversion H; subst; left; eauto].
    right. right. exists sample. split; [reflexivity|]. simpl.
    destruct (llm_generate_code w _ _) as [code|e];
      [|inversion H; subst; left; eauto].
    right. exists code. split; [reflexivity|].
    inversion H; subst. right. split; reflexivity.
Qed.

(** X18: obtaining the code sends the model at most one request, a
    generation prompt for this question; when privacy is enforced the sample
    in that prompt is the one taken with zero rows. *)
Theorem private_sample_has_no_rows q self r self' :
  Config.enforce_privacy (_config self) = true ->
  obtain_code q self = (r, self') ->
  events_since self self' = []
  \/ exists sample,
       head_to_csv w (_df self) 0%nat (Config.anonymize_dataframe (_config self))
       = Ok sample
       /\ events_since self self'
          = [EGenerateCode
               (GeneratePythonCodePrompt q sample (table_rows (_df self))
                  (length (table_columns (_df self))) (_engine self))].
Proof.
  intros Hprivacy H. apply obtain_code_cases in H. rewrite Hprivacy in H.
  destruct H as [[-> _]|[(code & _ & ->)|(sample & Hsample & H)]].
  - left. apply events_since_refl.
  - left. apply events_since_app. simpl. now rewrite app_nil_r.
  - right. exists sample. split; [exact Hsample|]. simpl in H.
    destruct H as [[-> _]|(code & _ & [[-> _]|[_ ->]])];
      apply events_since_app; reflexivity.
Qed.

(** X27: after the code was obtained, [last_code_generated] holds it as the
    cache or the model gave it; the code handed on to [run_code] is what the
    middlewares made of that. *)
Theorem generated_code_is_recorded q self code' self' :
  obtain_code q self = (Ok code', self') ->
  exists code,
    last_code_generated self' = Some code
    /\ apply_middlewares (_middlewares self) code = Ok code'.
Proof.
  intros H. apply obtain_code_cases in H.
  destruct H as [[_ [e He]]|[(code & Hr & ->)|(sample & _ & H)]]; [discriminate| |].
  - exists code. split; [reflexivity|now symmetry].
  - simpl in H.
    destruct H as [[_ [e He]]|(code & _ & [[_ [e He]]|[Hr ->]])]; try discriminate.
    exists code. split; [reflexivity|now symmetry].
Qed.

(** X22: when the value [run_code] returns has a length of 0 or 1 (an empty
    or one-element list, dictionary or string, an empty table), [query]
    returns [None]: neither an answer nor a failure message. *)
Theorem short_results_give_none q self code s1 results s2 n :
  obtain_code q (set_last_prompt_id (uuid4 w) self) = (Ok code, s1) ->
  run_code code (VTable (_df s1))
    (Config.use_error_correction_framework (_config s1)) s1 = (Ok results, s2) ->
  py_len results = Ok n ->
  n <= 1 ->
  fst (query q self) = Ok VNone.
Proof.
  intros Hobtain Hrun Hlen Hn.
  rewrite query_unfold, query_pipeline_unfold, Hobtain, Hrun.
  unfold classify, bind, get, lift, ret. rewrite Hlen.
  destruct (1 <? n) eqn:Hlt; [apply Z.ltb_lt in Hlt; lia|reflexivity].
Qed.

End QueryFacts.

(** ** The reserved names *)

Lemma reserved_suffix_iff rest :
  reserved_suffix rest = true
  <-> exists digits tail,
        rest = String.string_of_list_ascii digits +:+ tail
        /\ (length digits <= 2)%nat
        /\ forallb is_digit digits = true
        /\ (tail = EmptyString \/ tail = nl).
Proof.
  unfold reserved_suffix. split.
  - intros H. apply orb_prop in H as [H|H].
    + exists [], rest. apply at_end_iff in H. simpl. repeat split; auto.
    + destruct rest as [|c1 rest1]; [discriminate|].
      apply andb_prop in H as [H1 H]. apply orb_prop in H as [H|H].
      * exists [c1], rest1. apply at_end_iff in H. simpl. rewrite H1.
        repeat split; auto.
      * destruct rest1 as [|c2 rest2]; [discriminate|].
        apply andb_prop in H as [H2 H]. apply at_end_iff in H.
        exists [c1; c2], rest2. simpl. rewrite H1, H2. repeat split; auto.
  - intros (digits & tail & -> & Hlen & Hdigits & Htail).
    destruct digits as [|c1 [|c2 [|c3 digits]]]; simpl in Hlen, Hdigits; [| | |lia].
    + destruct Htail as [->| ->]; reflexivity.
    + apply andb_prop in Hdigits as [H1 _].
      destruct Htail as [->| ->]; simpl; rewrite H1; simpl; now rewrite ?orb_true_r.
    + apply andb_prop in Hdigits as [H1 Hdigits].
      apply andb_prop in Hdigits as [H2 _].
      destruct Htail as [->| ->]; simpl; rewrite H1, H2; simpl; now rewrite ?orb_true_r.
Qed.

(** X23: among the names written in ASCII, those [_is_df_overwrite] treats
    as reserved are exactly [df] followed by at most two decimal digits (and,
    as [$] allows, by one final newline): [df100], [dfs] or [DF] are not
    among them. *)
Theorem reserved_names_exact s :
  written_in_ascii s = true ->
  re_match_df s = true
  <-> exists digits tail,
        s = "df" +:+ String.string_of_list_ascii digits +:+ tail
        /\ (length digits <= 2)%nat
        /\ forallb is_digit digits = true
        /\ (tail = EmptyString \/ tail = nl).
Proof.
  intros _. destruct s as [|a [|b rest]].
  - split; [discriminate|]. intros (digits & tail & H & _). discriminate.
  - split.
    + destruct a as [[] [] [] [] [] [] [] []]; discriminate.
    + intros (digits & tail & H & _). discriminate.
  - rewrite re_match_df_cons. split.
    + intros H. apply andb_prop in H as [H Hrest]. apply andb_prop in H as [Ha Hb].
      apply Ascii.eqb_eq in Ha, Hb. subst.
      apply reserved_suffix_iff in Hrest as (digits & tail & -> & Hrest).
      exists digits, tail. split; [reflexivity|exact Hrest].
    + intros (digits & tail & H & Hrest). simpl in H. inversion H; subst.
      simpl. apply reserved_suffix_iff. exists digits, tail. split; [reflexivity|exact Hrest].
Qed.

(** ** Construction and delegation *)

Section AttributeFacts.

Import Attributes.

(** X24: [load_engine] raises its [ValueError] only when no engine was
    assigned, the wrapped object is not recognised as a frame, and that
    object itself has an attribute [_engine] equal to [None]; for an
    unrecognised object without such an attribute it raises what reading
    [_engine] on the object raises. *)
Theorem documented_error_needs_an_attribute polars_imported df _engine msg :
  load_engine polars_imported df _engine = Failed (ValueError msg) ->
  _engine = None
  /\ class_of df <> PandasFrame
  /\ (class_of df = PolarsFrame -> polars_imported = false)
  /\ frame_getattr df "_engine" = Ok VNone.
Proof.
  unfold load_engine, attribute, __getattr__. intros H.
  destruct (class_of df) eqn:Hclass; [discriminate| |].
  - destruct polars_imported; [discriminate|].
    destruct _engine; [discriminate|].
    destruct (frame_getattr df "_engine") as [[]|e0]; try discriminate.
    repeat split; try congruence.
  - destruct _engine; [discriminate|].
    destruct (frame_getattr df "_engine") as [[]|e0]; try discriminate.
    repeat split; try congruence.
Qed.

(** X26: wrapping an object that is not a frame and has no attribute
    [_engine] fails with the error of that attribute lookup, not with the
    [ValueError] the method raises itself. *)
Theorem unsupported_input_error polars_imported df e :
  class_of df = OtherObject ->
  frame_getattr df "_engine" = Raise e ->
  load_engine polars_imported df None = Failed (Raised e).
Proof.
  unfold load_engine, attribute, __getattr__. intros -> ->. reflexivity.
Qed.

(** X25: a configuration whose ["llm"] entry is [None] loads without error
    and assigns no [_llm]; on such an instance, when the wrapped object has
    no attribute [_llm] either, a call of [query] raises the
    [AttributeError] of that lookup: the statement that reads
    [self._llm.type] stands before the [try] block. *)
Theorem query_without_model_raises WHITELISTED_BUILTINS WHITELISTED_LIBRARIES w
    validated _llm config llm_type df q self e :
  load_config (Some None) validated None = Ok (_llm, config) ->
  frame_getattr df "_llm" = Raise e ->
  query_call WHITELISTED_BUILTINS WHITELISTED_LIBRARIES w _llm llm_type df q self
  = (Raise e, self).
Proof.
  unfold load_config, query_call, attribute, __getattr__. intros Hload Hattr.
  destruct validated as [c|e0]; [|discriminate].
  inversion Hload; subst. now rewrite Hattr.
Qed.

End AttributeFacts.

(** ** The statements above on concrete runs *)

Section MoreRuns.

Import Scenario Cases.

Local Abbreviation WB := whitelisted_builtins.
Local Abbreviation WL := whitelisted_libraries.

Lemma sanitizer_keeps_the_rest_witness :
  Module [assign "result" (Name "np")]
  = Module (List.filter
              (fun node => negb (is_import node) && negb (first_target_reserved node))
              plotting_body).
Proof.
  refine (sanitizer_keeps_the_rest WB WL plotting_body (instance Config.default)
            (Module [assign "result" (Name "np")])
            (snd (_clean_code WB WL plotting (instance Config.default))) _ _).
  - vm_compute. reflexivity.
  - vm_compute. reflexivity.
Defined.

Lemma sanitizing_twice_witness :
  fst (_clean_code WB WL (Module [assign "result" (Name "np")]) (asked Config.default))
  = Ok (Module [assign "result" (Name "np")])
  /\ _additional_dependencies
       (snd (_clean_code WB WL (Module [assign "result" (Name "np")])
               (asked Config.default))) = [].
Proof.
  refine (sanitizing_twice WB WL plotting (instance Config.default)
            (Module [assign "result" (Name "np")])
            (snd (_clean_code WB WL plotting (instance Config.default)))
            (asked Config.default) _).
  vm_compute. reflexivity.
Defined.

Lemma sanitized_imports_are_approved_witness :
  approved WB WL Config.default
    (ImportFrom (Some "matplotlib") {| name := "pyplot"; asname := Some "plt" |} []
       no_import).
Proof.
  refine (sanitized_imports_are_approved WB WL plotting_body (instance Config.default)
            (Module [assign "result" (Name "np")])
            (snd (_clean_code WB WL plotting (instance Config.default))) _ _ _ _).
  - vm_compute. reflexivity.
  - right. left. reflexivity.
  - reflexivity.
Defined.

Lemma recorded_dependencies_are_whitelisted_witness :
  Forall (whitelisted WL Config.default)
    [ {| dep_module := "numpy"; dep_name := "numpy"; dep_alias := "np" |};
      {| dep_module := "matplotlib"; dep_name := "pyplot"; dep_alias := "plt" |} ].
Proof.
  refine (recorded_dependencies_are_whitelisted WB WL plotting_body
            (instance Config.default)
            (Module [assign "result" (Name "np")])
            (snd (_clean_code WB WL plotting (instance Config.default))) _).
  vm_compute. reflexivity.
Defined.

Lemma imports_dropped_without_binding_witness :
  fst (_clean_code WB WL (Module renaming_pandas_body) (instance Config.default))
  = Ok (Module (List.filter kept_by_sanitizer renaming_pandas_body))
  /\ _additional_dependencies
       (snd (_clean_code WB WL (Module renaming_pandas_body) (instance Config.default)))
     = [].
Proof.
  refine (imports_dropped_without_binding WB WL renaming_pandas_body
            (instance Config.default) _).
  repeat constructor.
  - intros _. exists "pandas". split; [reflexivity|]. left. reflexivity.
  - discriminate.
Defined.

Lemma environment_names_witness :
  after_plotting = after_plotting
  /\ dom plotting_environment
     = {[ "pd" ]} ∪ {[ "__builtins__" ]}
       ∪ list_to_set (map dep_alias (_additional_dependencies after_plotting))
  /\ plotting_environment !! "__builtins__" = Some (VDict (restricted_builtins WB)).
Proof.
  refine (environment_names WB (model plotting plotting "") after_plotting
            plotting_environment after_plotting _).
  vm_compute. reflexivity.
Defined.

Lemma last_import_binds_alias_witness :
  exists m,
    import_dependency (model plotting plotting "") "matplotlib" = Ok m
    /\ twice_np_environment !! "np"
       = Some (match getattr (model plotting plotting "") m "pyplot" with
               | Some attribute => attribute
               | None => m
               end).
Proof.
  refine (last_import_binds_alias WB (model plotting plotting "") holding_twice_np
            twice_np_environment holding_twice_np
            [ {| dep_module := "numpy"; dep_name := "numpy"; dep_alias := "np" |} ]
            {| dep_module := "matplotlib"; dep_name := "pyplot"; dep_alias := "np" |}
            [] _ _ _ _).
  - vm_compute. reflexivity.
  - reflexivity.
  - constructor.
  - discriminate.
Defined.

Lemma success_ends_the_loop_witness :
  Forall (fun a' => attempt_raised_exn a' <> None) [first_attempt]
  /\ (attempt_raised_exn second_attempt = None ->
      fst (run leaving_x reading_x Config.default)
      = Ok (default VNone (attempt_after second_attempt !! "result"))).
Proof.
  refine (success_ends_the_loop WB WL (model leaving_x reading_x "") leaving_x
            (VTable loans) true (asked Config.default) leaving_x leaving_x
            bare_environment
            (snd (run_code_setup WB WL (model leaving_x reading_x "") leaving_x
                    (asked Config.default)))
            _ _ [first_attempt] second_attempt eq_refl _ (surjective_pairing _) _).
  - vm_compute. reflexivity.
  - vm_compute. reflexivity.
Defined.

Lemma corrections_quote_the_original_witness :
  correction_prompts
    (events_since (asked Config.default) (snd (run first_draft overwriting Config.default)))
  = map (fun e => CorrectErrorPrompt first_draft e (question stored) (df_head stored)
                    (num_rows stored) (num_columns stored))
      (failures
         (attempts
            (events_since (asked Config.default)
               (snd (run first_draft overwriting Config.default))))).
Proof.
  refine (corrections_quote_the_original WB WL (model first_draft overwriting "")
            first_draft (VTable loans) true (asked Config.default) first_draft failing
            bare_environment
            (snd (run_code_setup WB WL (model first_draft overwriting "") first_draft
                    (asked Config.default)))
            _ _ stored eq_refl _ (surjective_pairing _) eq_refl).
  vm_compute. reflexivity.
Defined.

Lemma correction_without_instructions_witness :
  fst (run_code WB WL (model failing failing "") failing (VTable loans) true
         (instance Config.default))
  = Raise (AttributeError "'DataFrame' object has no attribute '_original_instructions'")
  /\ executions
       (events_since (instance Config.default)
          (snd (run_code WB WL (model failing failing "") failing (VTable loans) true
                  (instance Config.default)))) = 1%nat
  /\ llm_requests
       (snd (run_code WB WL (model failing failing "") failing (VTable loans) true
               (instance Config.default)))
     = llm_requests (instance Config.default).
Proof.
  refine (correction_without_instructions WB WL (model failing failing "") failing
            (VTable loans) (instance Config.default) failing failing bare_environment
            (snd (run_code_setup WB WL (model failing failing "") failing
                    (instance Config.default)))
            (<["df" := VTable loans]> bare_environment)
            (NameError "name 'undefined_name' is not defined")
            eq_refl _ eq_refl _ _).
  - vm_compute. reflexivity.
  - vm_compute. reflexivity.
  - vm_compute. reflexivity.
Defined.

Lemma zero_budget_runs_nothing_witness :
  run_code WB WL (model answering answering "") answering (VTable loans) true
    (asked (with_budget 0 Config.default))
  = (Ok (default VNone (bare_environment !! "result")),
     snd (run_code_setup WB WL (model answering answering "") answering
            (asked (with_budget 0 Config.default))))
  /\ executions
       (events_since (asked (with_budget 0 Config.default))
          (snd (run_code_setup WB WL (model answering answering "") answering
                  (asked (with_budget 0 Config.default))))) = O.
Proof.
  refine (zero_budget_runs_nothing WB WL (model answering answering "") answering
            (VTable loans) true (asked (with_budget 0 Config.default)) answering
            answering bare_environment _ eq_refl _ _).
  - vm_compute. reflexivity.
  - vm_compute. discriminate.
Defined.

Lemma retries_leave_no_record_witness :
  last_code_executed (snd (run first_draft overwriting Config.default)) = Some failing
  /\ _additional_dependencies (snd (run first_draft overwriting Config.default))
     = _additional_dependencies
         (snd (run_code_setup WB WL (model first_draft overwriting "") first_draft
                 (asked Config.default))).
Proof.
  refine (retries_leave_no_record WB WL (model first_draft overwriting "") first_draft
            (VTable loans) true (asked Config.default) first_draft failing
            bare_environment _ _ _ eq_refl _ (surjective_pairing _)).
  vm_compute. reflexivity.
Defined.

Lemma cached_code_is_not_corrected_witness :
  fst (query WB WL (caching failing failing) the_question (instance Config.default))
  = Ok (VStr ("Unfortunately, I was not able to answer your question, because of the following error:"
              +:+ nl +:+ nl
              +:+ "'DataFrame' object has no attribute '_original_instructions'"
              +:+ nl))
  /\ llm_requests
       (snd (query WB WL (caching failing failing) the_question
               (instance Config.default)))
     = llm_requests (instance Config.default).
Proof.
  refine (cached_code_is_not_corrected WB WL (caching failing failing) the_question
            (instance Config.default) failing failing failing failing bare_environment
            (snd (run_code_setup WB WL (caching failing failing) failing
                    (set_last_code_generated (Some failing)
                       (set_last_prompt_id "0b1c" (instance Config.default)))))
            (<["df" := VTable loans]> bare_environment)
            (NameError "name 'undefined_name' is not defined")
            eq_refl eq_refl eq_refl eq_refl eq_refl _ _ _).
  - vm_compute. reflexivity.
  - vm_compute. reflexivity.
  - vm_compute. reflexivity.
Defined.

Lemma private_results_stay_local_witness :
  count is_call
    (events_since (instance (conversational true))
       (snd (ask answering answering (conversational true)))) = O.
Proof.
  refine (private_results_stay_local WB WL
            (model answering answering "The average principal is 42.") the_question
            (instance (conversational true)) _).
  left. reflexivity.
Defined.

Lemma uncorrected_error_is_reported_witness :
  fst (ask failing failing (with_error_correction false Config.default))
  = Ok (VStr ("Unfortunately, I was not able to answer your question, because of the following error:"
              +:+ nl +:+ nl
              +:+ str_exn (NameError "name 'undefined_name' is not defined") +:+ nl))
  /\ last_error (snd (ask failing failing (with_error_correction false Config.default)))
     = Some (str_exn (NameError "name 'undefined_name' is not defined")).
Proof.
  refine (uncorrected_error_is_reported WB WL
            (model failing failing "The average principal is 42.") the_question
            (instance (with_error_correction false Config.default)) failing
            (snd (obtain_code (model failing failing "The average principal is 42.")
                    the_question
                    (set_last_prompt_id "0b1c"
                       (instance (with_error_correction false Config.default)))))
            failing failing bare_environment _
            (<["df" := VTable loans]> bare_environment)
            (NameError "name 'undefined_name' is not defined")
            eq_refl _ _ _ _).
  - vm_compute. reflexivity.
  - vm_compute. reflexivity.
  - vm_compute. reflexivity.
  - vm_compute. reflexivity.
Defined.

Lemma private_sample_has_no_rows_witness :
  events_since (instance (conversational true))
    (snd (obtain_code (model answering answering "The average principal is 42.")
            the_question (instance (conversational true)))) = []
  \/ exists sample,
       head_to_csv (model answering answering "The average principal is 42.") loans
         0%nat true = Ok sample
       /\ events_since (instance (conversational true))
            (snd (obtain_code (model answering answering "The average principal is 42.")
                    the_question (instance (conversational true))))
          = [EGenerateCode (GeneratePythonCodePrompt the_question sample 10 2 "pandas")].
Proof.
  exact (private_sample_has_no_rows
           (model answering answering "The average principal is 42.") the_question
           (instance (conversational true)) _ _ eq_refl (surjective_pairing _)).
Defined.

Lemma generated_code_is_recorded_witness :
  exists code,
    last_code_generated
      (snd (obtain_code (model answering answering "The average principal is 42.")
              the_question (instance Config.default))) = Some code
    /\ apply_middlewares [] code = Ok answering.
Proof.
  refine (generated_code_is_recorded
            (model answering answering "The average principal is 42.") the_question
            (instance Config.default) answering _ _).
  vm_compute. reflexivity.
Defined.

Lemma short_results_give_none_witness :
  fst (ask empty_answer empty_answer Config.default) = Ok VNone.
Proof.
  refine (short_results_give_none WB WL
            (model empty_answer empty_answer "The average principal is 42.")
            the_question (instance Config.default) empty_answer
            (snd (obtain_code (model empty_answer empty_answer "The average principal is 42.")
                    the_question (set_last_prompt_id "0b1c" (instance Config.default))))
            (VList []) _ 0 _ _ eq_refl _).
  - vm_compute. reflexivity.
  - vm_compute. reflexivity.
  - vm_compute. discriminate.
Defined.

Lemma documented_error_needs_an_attribute_witness :
  (None : option string) = None
  /\ Attributes.class_of engineless <> Attributes.PandasFrame
  /\ (Attributes.class_of engineless = Attributes.PolarsFrame -> true = false)
  /\ Attributes.frame_getattr engineless "_engine" = Ok VNone.
Proof.
  exact (documented_error_needs_an_attribute true engineless None
           "Invalid input data. Must be a Pandas or Polars dataframe." eq_refl).
Defined.

Lemma unsupported_input_error_witness :
  Attributes.load_engine true a_list None
  = Attributes.Failed
      (Attributes.Raised (AttributeError "'list' object has no attribute '_engine'")).
Proof.
  exact (unsupported_input_error true a_list
           (AttributeError "'list' object has no attribute '_engine'") eq_refl eq_refl).
Defined.

Lemma query_without_model_raises_witness :
  Attributes.query_call WB WL (model answering answering "") None (Ok "openai") a_frame
    the_question (instance Config.default)
  = (Raise (AttributeError "'DataFrame' object has no attribute '_llm'"),
     instance Config.default).
Proof.
  exact (query_without_model_raises WB WL (model answering answering "")
           (Ok Config.default) None Config.default (Ok "openai") a_frame the_question
           (instance Config.default)
           (AttributeError "'DataFrame' object has no attribute '_llm'")
           eq_refl eq_refl).
Defined.

End MoreRuns.

Lemma reserved_names_exact_witness :
  written_in_ascii "df12" = true
  /\ (re_match_df "df12" = true
      <-> exists digits tail,
            "df12" = "df" +:+ String.string_of_list_ascii digits +:+ tail
            /\ (length digits <= 2)%nat
            /\ forallb is_digit digits = true
            /\ (tail = EmptyString \/ tail = nl)).
Proof. split; [reflexivity | apply (reserved_names_exact "df12"); reflexivity]. Defined.
